(** * Stationery inventory (app.py): a shallow embedding and its properties

    The program is a Streamlit application over one pandas DataFrame that is
    read from and written back to a CSV file on every interaction.  The
    embedding keeps the part of each page function that runs once a form has
    been submitted: the DataFrame is a list of rows, a cell that pandas holds
    as NaN is [None], widget inputs and the clock are explicit arguments, and
    what a page does (st.error, st.info, save_data followed by st.success, or an
    uncaught Python exception) is the [outcome] it returns.

    Modelling choices:
    - text is a list of ASCII characters, and int(), str.strip() and
      str.split() are modelled on ASCII: white space is TAB..CR, FS..US and
      the blank for str.strip() and str.split(), TAB..CR and the blank for
      int(); digits are 0..9;
    - Python integers are unbounded ([Z]); pandas keeps the two numeric
      columns as int64, which shows where a column is summed (the sum wraps
      around), where a column is converted on load (the conversion wraps
      around) and where a transaction writes a quantity that does not fit
      (the assignment raises): [column_sum], [astype_int] and
      [page_issue_receive_int64]; [page_issue_receive] itself is the page on
      Python integers, and agrees with the code whenever the code saves;
    - the interpreter's limit on the length of a decimal literal is not
      modelled;
    - the frame has the columns of init_data_file and the index 0..n-1 that
      pd.read_csv gives it, so a row label is a position in the list;
    - the text columns hold text or NaN. *)

From Stdlib Require Import ZArith QArith Qround List Sorted Ascii String Bool Lia.
Import ListNotations.

Local Open Scope Z_scope.
Local Open Scope list_scope.

(** ** Python text primitives *)

Module PyStr.

Definition pystr := list ascii.

(** A literal. *)
Definition lit (s : string) : pystr := list_ascii_of_string s.

Definition code (c : ascii) : N := N_of_ascii c.

(** str.isspace on one ASCII character: TAB..CR, FS..US and the blank. *)
Definition is_space (c : ascii) : bool :=
  let n := code c in
  ((9 <=? n)%N && (n <=? 13)%N) || ((28 <=? n)%N && (n <=? 32)%N).

(** The white space that int() skips around an ASCII literal (C's isspace):
    TAB..CR and the blank.  FS..US are white space for str.strip() and
    str.split(), but int() rejects them. *)
Definition is_int_space (c : ascii) : bool :=
  let n := code c in
  ((9 <=? n)%N && (n <=? 13)%N) || (n =? 32)%N.

Definition is_digit (c : ascii) : bool :=
  let n := code c in (48 <=? n)%N && (n <=? 57)%N.

Definition digit_val (c : ascii) : Z := Z.of_N (code c) - 48.

Definition digit_char (d : Z) : ascii := ascii_of_N (Z.to_N (48 + d)).

Fixpoint dropwhile (p : ascii -> bool) (s : pystr) : pystr :=
  match s with
  | [] => []
  | c :: s' => if p c then dropwhile p s' else s
  end.

(** s.lstrip(chars), s.rstrip(chars), s.strip(chars); [p] decides membership
    in chars. *)
Definition lstrip (p : ascii -> bool) (s : pystr) : pystr := dropwhile p s.
Definition rstrip (p : ascii -> bool) (s : pystr) : pystr :=
  rev (dropwhile p (rev s)).
Definition strip (p : ascii -> bool) (s : pystr) : pystr :=
  rstrip p (lstrip p s).

(** s.strip() *)
Definition strip_ws (s : pystr) : pystr := strip is_space s.

(** s.split(sep) for a one-character separator: never empty. *)
Fixpoint split_char (sep : ascii) (s : pystr) : list pystr :=
  match s with
  | [] => [[]]
  | c :: s' =>
      if Ascii.eqb c sep then [] :: split_char sep s'
      else match split_char sep s' with
           | w :: ws => (c :: w) :: ws
           | [] => [[c]]
           end
  end.

(** s.split(): runs of white space separate the words; [cur] is the word
    being read, last character first. *)
Fixpoint split_ws_from (cur : pystr) (s : pystr) : list pystr :=
  match s with
  | [] => match cur with [] => [] | _ => [rev cur] end
  | c :: s' =>
      if is_space c
      then match cur with
           | [] => split_ws_from [] s'
           | _ => rev cur :: split_ws_from [] s'
           end
      else split_ws_from (c :: cur) s'
  end.
Definition split_ws (s : pystr) : list pystr := split_ws_from [] s.

(** s.startswith(prefix) *)
Fixpoint startswith (s prefix : pystr) : bool :=
  match prefix, s with
  | [], _ => true
  | _ :: _, [] => false
  | p :: prefix', c :: s' => Ascii.eqb c p && startswith s' prefix'
  end.

(** The digits and underscores of an integer literal, after the sign:
    at least one digit, underscores only singly and between digits.
    [after_digit] tells whether the previous character was a digit. *)
Fixpoint int_body (after_digit : bool) (acc : Z) (s : pystr) : option Z :=
  match s with
  | [] => if after_digit then Some acc else None
  | c :: s' =>
      if is_digit c then int_body true (acc * 10 + digit_val c) s'
      else if Ascii.eqb c "_"
           then (if after_digit then int_body false acc s' else None)
           else None
  end.

(** int(s) in base ten on ASCII text; [None] is ValueError. *)
Definition py_int (s : pystr) : option Z :=
  match strip is_int_space s with
  | [] => None
  | c :: r =>
      if Ascii.eqb c "-" then option_map Z.opp (int_body false 0 r)
      else if Ascii.eqb c "+" then int_body false 0 r
      else int_body false 0 (c :: r)
  end.

(** The decimal digits of a natural number, most significant first;
    [fuel] bounds the number of digits. *)
Fixpoint digits_from (fuel : nat) (n : Z) (acc : pystr) : pystr :=
  match fuel with
  | O => acc
  | S fuel' =>
      let acc' := digit_char (n mod 10) :: acc in
      if n <? 10 then acc' else digits_from fuel' (n / 10) acc'
  end.

Definition digits (n : Z) : pystr :=
  digits_from (S (S (Z.to_nat (Z.log2 n)))) n [].

(** str(n) and the f-string field {n} for an int. *)
Definition str_of_int (n : Z) : pystr :=
  if n <? 0 then "-"%char :: digits (- n) else digits n.

(** The f-string field {n:04d}: sign first, then zeros up to width 4. *)
Definition format_04d (n : Z) : pystr :=
  let body := digits (Z.abs n) in
  if n <? 0
  then "-"%char :: repeat "0"%char (3 - List.length body)%nat ++ body
  else repeat "0"%char (4 - List.length body)%nat ++ body.

End PyStr.
Import PyStr.


(** ** The data model *)

(** A text cell of the DataFrame; [None] is NaN (an empty CSV field). *)
Definition cell := option pystr.

(** One row; the columns are those of init_data_file.  [unit_] is the
    column "unit".  After load_data the two numeric columns hold ints. *)
Record Row := mkRow {
  item_id : cell;
  item_name : cell;
  category : cell;
  unit_ : cell;
  quantity : Z;
  reorder_level : Z;
  location : cell;
  last_updated : cell;
  remarks : cell
}.

Definition DataFrame := list Row.

(** The range of an int64 column. *)
Definition int64_min : Z := - 2 ^ 63.
Definition int64_max : Z := 2 ^ 63 - 1.

Definition fits_int64 (z : Z) : bool := (int64_min <=? z) && (z <=? int64_max).

(** Two's-complement wrap-around into int64. *)
Definition wrap_int64 (z : Z) : Z := (z - int64_min) mod 2 ^ 64 + int64_min.

(** A frame as pandas holds it after load_data: both numeric columns are
    int64. *)
Definition int64_frame (df : DataFrame) : Prop :=
  Forall (fun r => fits_int64 (quantity r) = true
                   /\ fits_int64 (reorder_level r) = true) df.

(** df.empty *)
Definition empty (df : DataFrame) : bool :=
  match df with [] => true | _ :: _ => false end.

Fixpoint str_eqb (a b : pystr) : bool :=
  match a, b with
  | [], [] => true
  | x :: a', y :: b' => Ascii.eqb x y && str_eqb a' b'
  | _, _ => false
  end.

(** The element-wise comparison df["item_id"] == selected_id at one row:
    NaN equals nothing. *)
Definition id_matches (selected_id : cell) (r : Row) : bool :=
  match item_id r, selected_id with
  | Some a, Some b => str_eqb a b
  | _, _ => false
  end.

(** series.isin(values) at one cell. *)
Definition isin (c : cell) (values : list pystr) : bool :=
  match c with
  | Some s => existsb (str_eqb s) values
  | None => false
  end.

(** df.index[df["item_id"] == selected_id][0], [None] when the selection is
    empty (IndexError). *)
Fixpoint first_match (selected_id : cell) (df : DataFrame) : option nat :=
  match df with
  | [] => None
  | r :: df' =>
      if id_matches selected_id r then Some O
      else option_map S (first_match selected_id df')
  end.

(** df.at[idx, column] = value, as the row update [f]; an index outside the
    frame is never passed. *)
Fixpoint at_set (idx : nat) (f : Row -> Row) (df : DataFrame) : DataFrame :=
  match df, idx with
  | [], _ => []
  | r :: df', O => f r :: df'
  | r :: df', S i => r :: at_set i f df'
  end.

Definition set_item_name (v : cell) (r : Row) : Row :=
  mkRow (item_id r) v (category r) (unit_ r) (quantity r) (reorder_level r)
        (location r) (last_updated r) (remarks r).
Definition set_category (v : cell) (r : Row) : Row :=
  mkRow (item_id r) (item_name r) v (unit_ r) (quantity r) (reorder_level r)
        (location r) (last_updated r) (remarks r).
Definition set_unit (v : cell) (r : Row) : Row :=
  mkRow (item_id r) (item_name r) (category r) v (quantity r) (reorder_level r)
        (location r) (last_updated r) (remarks r).
Definition set_quantity (v : Z) (r : Row) : Row :=
  mkRow (item_id r) (item_name r) (category r) (unit_ r) v (reorder_level r)
        (location r) (last_updated r) (remarks r).
Definition set_reorder_level (v : Z) (r : Row) : Row :=
  mkRow (item_id r) (item_name r) (category r) (unit_ r) (quantity r) v
        (location r) (last_updated r) (remarks r).
Definition set_location (v : cell) (r : Row) : Row :=
  mkRow (item_id r) (item_name r) (category r) (unit_ r) (quantity r)
        (reorder_level r) v (last_updated r) (remarks r).
Definition set_last_updated (v : cell) (r : Row) : Row :=
  mkRow (item_id r) (item_name r) (category r) (unit_ r) (quantity r)
        (reorder_level r) (location r) v (remarks r).
Definition set_remarks (v : cell) (r : Row) : Row :=
  mkRow (item_id r) (item_name r) (category r) (unit_ r) (quantity r)
        (reorder_level r) (location r) (last_updated r) v.

(** ** What a page does *)

Inductive py_exception :=
| IndexError
| KeyError
| IntCastingNaNError
| AssertionError.

Inductive outcome :=
| Saved (df : DataFrame) (msg : pystr)   (* save_data(df); st.success(msg) *)
| StError (msg : pystr)                  (* st.error(msg); return *)
| StInfo (msg : pystr)                   (* st.info(msg); return *)
| Raised (e : py_exception).             (* uncaught exception *)

(** The table in the backing file after an interaction that started from
    [df]: only save_data writes it. *)
Definition table_after (o : outcome) (df : DataFrame) : DataFrame :=
  match o with
  | Saved df' _ => df'
  | _ => df
  end.

(** ** generate_item_id *)

(** str(x).split("-")[-1] *)
Definition id_suffix (x : pystr) : pystr := last (split_char "-" x) [].

(** df["item_id"].dropna().tolist() *)
Fixpoint existing_ids (df : DataFrame) : list pystr :=
  match df with
  | [] => []
  | r :: df' =>
      match item_id r with
      | Some x => x :: existing_ids df'
      | None => existing_ids df'
      end
  end.

(** The loop over existing_ids: append on success, continue on ValueError. *)
Definition collect_nums (ids : list pystr) : list Z :=
  fold_left
    (fun nums x =>
       match py_int (id_suffix x) with
       | Some n => nums ++ [n]
       | None => nums
       end)
    ids [].

(** max(nums) on a non-empty list. *)
Definition py_max (n : Z) (ns : list Z) : Z := fold_left Z.max ns n.

Definition next_num (df : DataFrame) : Z :=
  match collect_nums (existing_ids df) with
  | [] => 1
  | n :: ns => py_max n ns + 1
  end.

Definition generate_item_id (df : DataFrame) : pystr :=
  if empty df then lit "STN-0001"
  else lit "STN-" ++ format_04d (next_num df).

(** ** apply_filters *)

Definition low_stock (r : Row) : bool := quantity r <=? reorder_level r.

Definition apply_filters (df : DataFrame)
    (category_filter location_filter : list pystr) (low_stock_only : bool)
    : DataFrame :=
  let df :=
    match category_filter with
    | [] => df
    | _ :: _ => filter (fun r => isin (category r) category_filter) df
    end in
  let df :=
    match location_filter with
    | [] => df
    | _ :: _ => filter (fun r => isin (location r) location_filter) df
    end in
  let df := if low_stock_only then filter low_stock df else df in
  df.

(** ** page_add_edit *)

(** What the add and update forms submit. *)
Record ItemForm := mkItemForm {
  form_item_name : pystr;
  form_category : pystr;
  form_unit : pystr;
  form_location : pystr;
  form_quantity : Z;
  form_reorder_level : Z;
  form_remarks : pystr
}.

(** [s or default]: the empty string is falsy. *)
Definition or_default (s default : pystr) : pystr :=
  match s with [] => default | _ :: _ => s end.

(** str(x) of a cell inside an f-string. *)
Definition cell_str (c : cell) : pystr :=
  match c with Some s => s | None => lit "nan" end.

(** The message of st.error for a blank name: the spec's ValidationError. *)
Definition ValidationError : pystr := lit "Item name is required.".

Definition new_row (new_id now : pystr) (f : ItemForm) : Row :=
  {| item_id := Some new_id;
     item_name := Some (strip_ws (form_item_name f));
     category := Some (or_default (strip_ws (form_category f)) (lit "Uncategorized"));
     unit_ := Some (or_default (strip_ws (form_unit f)) (lit "Nos"));
     quantity := form_quantity f;
     reorder_level := form_reorder_level f;
     location := Some (or_default (strip_ws (form_location f)) (lit "Not specified"));
     last_updated := Some now;
     remarks := Some (strip_ws (form_remarks f)) |}.

(** Mode "Add new item", form submitted. *)
Definition add_new_item (df : DataFrame) (f : ItemForm) (now : pystr) : outcome :=
  match strip_ws (form_item_name f) with
  | [] => StError ValidationError
  | _ :: _ =>
      let new_id := generate_item_id df in
      let df := df ++ [new_row new_id now f] in
      Saved df (lit "Item added with ID " ++ new_id ++ lit ".")
  end.

(** Mode "Update existing item", form submitted.  The row is looked up
    twice by position: once to fill the form, once to write. *)
Definition update_existing_item (df : DataFrame) (selected_id : cell)
    (f : ItemForm) (now : pystr) : outcome :=
  if empty df then StInfo (lit "No items to update. Add items first.")
  else
    match first_match selected_id df with
    | None => Raised IndexError
    | Some idx =>
        match strip_ws (form_item_name f) with
        | [] => StError ValidationError
        | _ :: _ =>
            let df := at_set idx (set_item_name (Some (strip_ws (form_item_name f)))) df in
            let df := at_set idx (set_category
                        (Some (or_default (strip_ws (form_category f)) (lit "Uncategorized")))) df in
            let df := at_set idx (set_unit
                        (Some (or_default (strip_ws (form_unit f)) (lit "Nos")))) df in
            let df := at_set idx (set_location
                        (Some (or_default (strip_ws (form_location f)) (lit "Not specified")))) df in
            let df := at_set idx (set_quantity (form_quantity f)) df in
            let df := at_set idx (set_reorder_level (form_reorder_level f)) df in
            let df := at_set idx (set_remarks (Some (strip_ws (form_remarks f)))) df in
            let df := at_set idx (set_last_updated (Some now)) df in
            Saved df (lit "Item " ++ cell_str selected_id ++ lit " updated.")
        end
    end.

(** ** page_issue_receive *)

Inductive TxnMode := Issue | Receive.

(** The two options of the "Transaction type" radio. *)
Definition mode_text (m : TxnMode) : pystr :=
  match m with
  | Issue => lit "Issue (decrease stock)"
  | Receive => lit "Receive (increase stock)"
  end.

(** mode.split()[0] *)
Definition mode_word (m : TxnMode) : pystr := hd [] (split_ws (mode_text m)).

(** The message of st.error for an issue beyond the stock: the spec's
    InsufficientStockError. *)
Definition InsufficientStockError (qty current_qty : Z) : pystr :=
  lit "Cannot issue " ++ str_of_int qty ++ lit "; only "
    ++ str_of_int current_qty ++ lit " available.".

(** Membership in the characters of " |". *)
Definition is_sep (c : ascii) : bool := Ascii.eqb c " " || Ascii.eqb c "|".

(** The audit line of a transaction. *)
Definition audit_line (now : pystr) (m : TxnMode) (qty : Z) (reason : pystr) : pystr :=
  lit "[" ++ now ++ lit "] " ++ mode_word m ++ lit " " ++ str_of_int qty
    ++ lit " (" ++ reason ++ lit ")".

(** The page with the quantities as Python integers.  The int64 column
    adds one thing, which [page_issue_receive_int64] below models: the
    assignment of a quantity that does not fit raises. *)
Definition page_issue_receive (df : DataFrame) (selected_id : cell)
    (mode : TxnMode) (qty : Z) (reason now : pystr) : outcome :=
  if empty df then StInfo (lit "No items in inventory. Add items first.")
  else
    match first_match selected_id df with
    | None => Raised IndexError
    | Some idx =>
        match nth_error df idx with
        | None => Raised KeyError
        | Some r =>
            let current_qty := quantity r in
            let new_qty :=
              if startswith (mode_text mode) (lit "Issue")
              then if qty >? current_qty then None else Some (current_qty - qty)
              else Some (current_qty + qty) in
            match new_qty with
            | None => StError (InsufficientStockError qty current_qty)
            | Some new_qty =>
                let df := at_set idx (set_quantity new_qty) df in
                let df := at_set idx (set_last_updated (Some now)) df in
                let old_remarks :=
                  match nth_error df idx with
                  | Some r' => match remarks r' with Some s => s | None => [] end
                  | None => []
                  end in
                let line := audit_line now mode qty reason in
                let df := at_set idx
                            (set_remarks (Some (strip is_sep (old_remarks ++ lit " | " ++ line))))
                            df in
                Saved df (mode_word mode ++ lit "d " ++ str_of_int qty
                            ++ lit " units. New quantity: " ++ str_of_int new_qty ++ lit ".")
            end
        end
    end.

(** The row that a posted transaction leaves at the selected index: the
    three assignments of the page, composed. *)
Definition posted_row (r : Row) (new_qty : Z) (mode : TxnMode) (qty : Z)
    (reason now : pystr) : Row :=
  set_remarks
    (Some (strip is_sep
             (match remarks r with Some s => s | None => [] end
              ++ lit " | " ++ audit_line now mode qty reason)))
    (set_last_updated (Some now) (set_quantity new_qty r)).

(** page_issue_receive on the int64 column: the assignment
    df.at[idx, "quantity"] = int(new_qty) raises an uncaught AssertionError
    when the new quantity does not fit the column, before anything is
    saved; on an int64 frame only the cell that was written can fail the
    test. *)
Definition page_issue_receive_int64 (df : DataFrame) (selected_id : cell)
    (mode : TxnMode) (qty : Z) (reason now : pystr) : outcome :=
  match page_issue_receive df selected_id mode qty reason now with
  | Saved df' msg =>
      if forallb (fun r => fits_int64 (quantity r)) df'
      then Saved df' msg
      else Raised AssertionError
  | o => o
  end.

(** ** page_admin: the delete button *)

Definition delete_selected_item (df : DataFrame) (selected_id : cell) : outcome :=
  if empty df then StInfo (lit "No items to delete.")
  else
    let df_new := filter (fun r => negb (id_matches selected_id r)) df in
    Saved df_new (lit "Item " ++ cell_str selected_id
                    ++ lit " deleted. Reload page to see updated list.").

(** ** main: one interaction that changes the table *)

Inductive Operation :=
| OpAdd (f : ItemForm)
| OpUpdate (selected_id : cell) (f : ItemForm)
| OpTransaction (selected_id : cell) (mode : TxnMode) (qty : Z) (reason : pystr)
| OpDelete (selected_id : cell).

Definition run (df : DataFrame) (op : Operation) (now : pystr) : outcome :=
  match op with
  | OpAdd f => add_new_item df f now
  | OpUpdate selected_id f => update_existing_item df selected_id f now
  | OpTransaction selected_id mode qty reason =>
      page_issue_receive df selected_id mode qty reason now
  | OpDelete selected_id => delete_selected_item df selected_id
  end.

(** What the widgets guarantee: number_input has min_value 0 in the item
    forms and min_value 1 in the transaction form. *)
Definition inputs_in_range (op : Operation) : Prop :=
  match op with
  | OpAdd f => 0 <= form_quantity f
  | OpUpdate _ f => 0 <= form_quantity f
  | OpTransaction _ _ qty _ => 1 <= qty
  | OpDelete _ => True
  end.

(** No row carries the selected id. *)
Definition absent (selected_id : cell) (df : DataFrame) : Prop :=
  forall r, In r df -> id_matches selected_id r = false.

(** The invariant on quantities. *)
Definition quantities_nonneg (df : DataFrame) : Prop :=
  Forall (fun r => 0 <= quantity r) df.

(** The ids the select boxes offer: the values of item_map. *)
Definition selectable_ids (df : DataFrame) : list cell := map item_id df.

(** ** load_data *)

(** A numeric value of a pandas column: an int, a finite float (its exact
    rational value), an infinity or NaN. *)
Inductive number :=
| Int (z : Z)
| Float (q : Q)
| Inf (negative : bool)
| NaN.

(** A cell of a column that pd.read_csv returned: already a number when the
    whole column read as numbers, otherwise the field's text (an empty field
    is NaN in both). *)
Inductive raw_value :=
| Num (n : number)
| Text (s : pystr).

Record RawRow := mkRawRow {
  raw_item_id : cell;
  raw_item_name : cell;
  raw_category : cell;
  raw_unit : cell;
  raw_quantity : raw_value;
  raw_reorder_level : raw_value;
  raw_location : cell;
  raw_last_updated : cell;
  raw_remarks : cell
}.

Section LoadData.

(** How pandas reads a text as a number ([None]: it does not); the parser is
    the library's, so the definitions take it as given. *)
Variable parse_number : pystr -> option number.

(** pd.to_numeric(column, errors="coerce") at one cell. *)
Definition to_numeric_coerce (v : raw_value) : number :=
  match v with
  | Num n => n
  | Text s => match parse_number s with Some n => n | None => NaN end
  end.

(** .fillna(0) at one cell. *)
Definition fillna_0 (n : number) : number :=
  match n with NaN => Int 0 | _ => n end.

(** .astype(int) at one cell, the target being int64: an int beyond int64
    (a uint64 column) wraps around; a finite float is truncated towards zero,
    and one beyond int64 is left at the least int64 by the conversion (as on
    x86-64); a non-finite value makes the whole conversion raise. *)
Definition astype_int (n : number) : option Z :=
  match n with
  | Int z => Some (wrap_int64 z)
  | Float q =>
      let t := Z.quot (Qnum q) (Zpos (Qden q)) in
      Some (if fits_int64 t then t else int64_min)
  | Inf _ => None
  | NaN => None
  end.

Definition coerce_cell (v : raw_value) : option Z :=
  astype_int (fillna_0 (to_numeric_coerce v)).

(** The conversion of a whole column: all cells or the exception. *)
Fixpoint coerce_column (vs : list raw_value) : option (list Z) :=
  match vs with
  | [] => Some []
  | v :: vs' =>
      match coerce_cell v, coerce_column vs' with
      | Some z, Some zs => Some (z :: zs)
      | _, _ => None
      end
  end.

Definition typed_row (r : RawRow) (q l : Z) : Row :=
  mkRow (raw_item_id r) (raw_item_name r) (raw_category r) (raw_unit r) q l
        (raw_location r) (raw_last_updated r) (raw_remarks r).

Fixpoint typed_rows (rs : list RawRow) (qs ls : list Z) : DataFrame :=
  match rs, qs, ls with
  | r :: rs', q :: qs', l :: ls' => typed_row r q l :: typed_rows rs' qs' ls'
  | _, _, _ => []
  end.

(** load_data on what pd.read_csv returned: the quantity column is
    converted first, then the reorder_level column. *)
Definition load_data (raw : list RawRow) : DataFrame + py_exception :=
  match coerce_column (map raw_quantity raw) with
  | None => inr IntCastingNaNError
  | Some qs =>
      match coerce_column (map raw_reorder_level raw) with
      | None => inr IntCastingNaNError
      | Some ls => inl (typed_rows raw qs ls)
      end
  end.

End LoadData.

(** The row that a submitted update leaves at the selected index: the eight
    assignments of the form, composed. *)
Definition updated_row (f : ItemForm) (now : pystr) (r : Row) : Row :=
  set_last_updated (Some now)
    (set_remarks (Some (strip_ws (form_remarks f)))
       (set_reorder_level (form_reorder_level f)
          (set_quantity (form_quantity f)
             (set_location
                (Some (or_default (strip_ws (form_location f)) (lit "Not specified")))
                (set_unit (Some (or_default (strip_ws (form_unit f)) (lit "Nos")))
                   (set_category
                      (Some (or_default (strip_ws (form_category f)) (lit "Uncategorized")))
                      (set_item_name (Some (strip_ws (form_item_name f))) r))))))).

(** ** page_dashboard: the three metrics *)

Record Metrics := mkMetrics {
  total_items : nat;
  total_qty : Z;
  low_stock_count : Z
}.

(** series.sum() of an int64 column: the running sum wraps around. *)
Definition column_sum (xs : list Z) : Z :=
  fold_left (fun acc x => wrap_int64 (acc + x)) xs 0.

(** series.sum() of a bool column: True counts 1. *)
Definition count_true (bs : list bool) : Z :=
  fold_left (fun acc (b : bool) => if b then acc + 1 else acc) bs 0.

Definition dashboard_metrics (df : DataFrame) : Metrics :=
  {| total_items := List.length df;
     total_qty := if empty df then 0 else column_sum (map quantity df);
     low_stock_count :=
       if empty df then 0
       else count_true (map (fun r => quantity r <=? reorder_level r) df) |}.

(** ** item_map and the select boxes *)

(** The key of a row: f"{row.item_id} - {row.item_name}". *)
Definition item_label (r : Row) : pystr :=
  cell_str (item_id r) ++ lit " - " ++ cell_str (item_name r).

(** d[k] = v on a dict kept as its items in insertion order: an existing key
    keeps its place and takes the new value. *)
Fixpoint dict_set (k : pystr) (v : cell) (d : list (pystr * cell))
    : list (pystr * cell) :=
  match d with
  | [] => [(k, v)]
  | (k', v') :: d' =>
      if str_eqb k' k then (k', v) :: d' else (k', v') :: dict_set k v d'
  end.

(** d[k]; [None] is KeyError. *)
Fixpoint dict_get (k : pystr) (d : list (pystr * cell)) : option cell :=
  match d with
  | [] => None
  | (k', v) :: d' => if str_eqb k' k then Some v else dict_get k d'
  end.

(** The dict comprehension over df.iterrows(). *)
Definition item_map (df : DataFrame) : list (pystr * cell) :=
  fold_left (fun d r => dict_set (item_label r) (item_id r) d) df [].

(** list(item_map.keys()): what a select box offers. *)
Definition options (df : DataFrame) : list pystr := map fst (item_map df).

(** page_issue_receive from the label picked in the select box. *)
Definition page_issue_receive_for (df : DataFrame) (selected : pystr)
    (mode : TxnMode) (qty : Z) (reason now : pystr) : outcome :=
  if empty df then StInfo (lit "No items in inventory. Add items first.")
  else
    match dict_get selected (item_map df) with
    | None => Raised KeyError
    | Some selected_id =>
        page_issue_receive_int64 df selected_id mode qty reason now
    end.

(** The ids of a frame are all text: no row has a NaN item_id. *)
Definition ids_present (df : DataFrame) : Prop :=
  Forall (fun r => item_id r <> None) df.

(** ** sidebar_filters: the options of the two multiselects *)

(** a <= b on str: code points compared left to right, a prefix first. *)
Fixpoint str_leb (a b : pystr) : bool :=
  match a, b with
  | [], _ => true
  | _ :: _, [] => false
  | x :: a', y :: b' =>
      if (code x <? code y)%N then true
      else if (code x =? code y)%N then str_leb a' b'
      else false
  end.

(** series.dropna().tolist() of a text column. *)
Fixpoint dropna (cells : list cell) : list pystr :=
  match cells with
  | [] => []
  | Some s :: cells' => s :: dropna cells'
  | None :: cells' => dropna cells'
  end.

(** series.unique(): the values in order of first appearance. *)
Fixpoint unique (l : list pystr) : list pystr :=
  match l with
  | [] => []
  | x :: l' => x :: filter (fun y => negb (str_eqb y x)) (unique l')
  end.

Fixpoint insert_sorted (x : pystr) (l : list pystr) : list pystr :=
  match l with
  | [] => [x]
  | y :: l' => if str_leb x y then x :: y :: l' else y :: insert_sorted x l'
  end.

(** sorted(l) on a list of str, as an insertion sort: equal strings are the
    same string, so every sorting algorithm returns this list. *)
Definition py_sorted (l : list pystr) : list pystr :=
  fold_right insert_sorted [] l.

(** sorted(df[column].dropna().unique().tolist()) *)
Definition column_options (column : Row -> cell) (df : DataFrame) : list pystr :=
  py_sorted (unique (dropna (map column df))).

(** A numeric value that .astype(int) converts without raising and without
    leaving the platform to decide: no infinity, an int of an int64 or uint64
    column, a float whose integer part fits int64. *)
Definition convertible (n : number) : Prop :=
  match n with
  | Int z => int64_min <= z < 2 ^ 64
  | Float q => fits_int64 (Z.quot (Qnum q) (Zpos (Qden q))) = true
  | Inf _ => False
  | NaN => True
  end.

(** Every quantity and reorder_level of the raw frame is convertible. *)
Definition all_convertible (parse_number : pystr -> option number)
    (raw : list RawRow) : Prop :=
  forall r,
    In r raw ->
    convertible (to_numeric_coerce parse_number (raw_quantity r))
    /\ convertible (to_numeric_coerce parse_number (raw_reorder_level r)).

(** ** The specification's wording, for comparison with the code *)

Module Spec.

(** The parsed suffixes of the ids, those that do not parse left out. *)
Fixpoint parsed_suffixes (ids : list pystr) : list Z :=
  match ids with
  | [] => []
  | x :: ids' =>
      match py_int (id_suffix x) with
      | Some n => n :: parsed_suffixes ids'
      | None => parsed_suffixes ids'
      end
  end.

Fixpoint maximum (n : Z) (ns : list Z) : Z :=
  match ns with
  | [] => n
  | m :: ns' => Z.max n (maximum m ns')
  end.

(** nextId: STN-0001 on the empty table, otherwise the maximum parsed
    suffix plus one (1 when none parses) as STN-%04d. *)
Definition nextId (df : DataFrame) : pystr :=
  match df with
  | [] => lit "STN-0001"
  | _ :: _ =>
      lit "STN-" ++
      format_04d match parsed_suffixes (existing_ids df) with
                 | [] => 1
                 | n :: ns => maximum n ns + 1
                 end
  end.

(** A filter argument that is absent or empty restricts nothing; a supplied
    set restricts the field to its members. *)
Definition unrestricted_or_member (values : list pystr) (c : cell) : bool :=
  match values with
  | [] => true
  | _ :: _ => isin c values
  end.

(** The conjunction of the restrictions that the filter arguments impose on
    a row. *)
Definition passes (category_filter location_filter : list pystr)
    (low_stock_only : bool) (r : Row) : bool :=
  unrestricted_or_member category_filter (category r)
  && unrestricted_or_member location_filter (location r)
  && implb low_stock_only (quantity r <=? reorder_level r).

(** The audit line as the specification words it:
    [<timestamp>] <Issued|Received> <qty> (<reason>). *)
Definition action_word (m : TxnMode) : pystr :=
  match m with
  | Issue => lit "Issued"
  | Receive => lit "Received"
  end.

Definition audit_line (now : pystr) (m : TxnMode) (qty : Z) (reason : pystr) : pystr :=
  lit "[" ++ now ++ lit "] " ++ action_word m ++ lit " " ++ str_of_int qty
    ++ lit " (" ++ reason ++ lit ")".

(** [l] holds some of the elements of [m], in the order they have in [m]. *)
Inductive subsequence {A : Type} : list A -> list A -> Prop :=
| subseq_nil : subsequence [] []
| subseq_skip x l m : subsequence l m -> subsequence l (x :: m)
| subseq_keep x l m : subsequence l m -> subsequence (x :: l) (x :: m).

End Spec.

(** ** Sample data *)

Module Sample.

Definition now : pystr := lit "2024-03-01 09:30:00".

Definition pens : Row :=
  {| item_id := Some (lit "STN-0001"); item_name := Some (lit "Gel Pen");
     category := Some (lit "Pen"); unit_ := Some (lit "Nos");
     quantity := 5; reorder_level := 10;
     location := Some (lit "Main Store");
     last_updated := Some (lit "2024-02-27 16:00:00"); remarks := None |}.

Definition paper : Row :=
  {| item_id := Some (lit "STN-0002"); item_name := Some (lit "A4 Paper Rim");
     category := Some (lit "Paper"); unit_ := Some (lit "Pack");
     quantity := 40; reorder_level := 10;
     location := Some (lit "Annex");
     last_updated := Some (lit "2024-02-28 11:15:00");
     remarks := Some (lit "opening stock") |}.

Definition files : Row :=
  {| item_id := Some (lit "STN-0007"); item_name := Some (lit "Box File");
     category := Some (lit "File"); unit_ := Some (lit "Nos");
     quantity := 0; reorder_level := 3;
     location := Some (lit "Main Store");
     last_updated := Some (lit "2024-02-20 08:00:00"); remarks := Some [] |}.

Definition stock : DataFrame := [pens; paper; files].

(** A row whose item_id field is empty in the file, and a table with it. *)
Definition loose : Row :=
  {| item_id := None; item_name := Some (lit "Loose Sheets");
     category := Some (lit "Paper"); unit_ := Some (lit "Nos");
     quantity := 30; reorder_level := 5;
     location := Some (lit "Annex");
     last_updated := Some (lit "2024-02-25 12:00:00"); remarks := None |}.

Definition stock_with_blank_id : DataFrame := [pens; loose].

(** A row at the top of the int64 range. *)
Definition full : Row :=
  {| item_id := Some (lit "STN-0003"); item_name := Some (lit "Staples");
     category := Some (lit "Desk"); unit_ := Some (lit "Nos");
     quantity := 9223372036854775807; reorder_level := 10;
     location := Some (lit "Main Store");
     last_updated := Some (lit "2024-02-26 09:00:00"); remarks := None |}.

(** A quantity column that read as uint64: one value is above int64. *)
Definition raw_with_uint64 : list RawRow :=
  [ mkRawRow (Some (lit "STN-0001")) (Some (lit "Gel Pen")) (Some (lit "Pen"))
      (Some (lit "Nos")) (Num (Int 9223372036854775808)) (Num (Int 10))
      (Some (lit "Main Store")) None None ].

Definition a4_form : ItemForm :=
  {| form_item_name := lit "A4 Paper"; form_category := lit "";
     form_unit := lit ""; form_location := lit "";
     form_quantity := 0; form_reorder_level := 10; form_remarks := lit "" |}.

Definition stapler_form : ItemForm :=
  {| form_item_name := lit " Stapler "; form_category := lit "Desk";
     form_unit := lit "Nos"; form_location := lit " ";
     form_quantity := 12; form_reorder_level := 4; form_remarks := lit "" |}.

(** A quantity column that read as float64 because one field is the
    text inf. *)
Definition raw_with_inf : list RawRow :=
  [ mkRawRow (Some (lit "STN-0001")) (Some (lit "Gel Pen")) (Some (lit "Pen"))
      (Some (lit "Nos")) (Num (Float (5 # 1))) (Num (Int 10))
      (Some (lit "Main Store")) None None;
    mkRawRow (Some (lit "STN-0002")) (Some (lit "A4 Paper Rim")) (Some (lit "Paper"))
      (Some (lit "Pack")) (Num (Inf false)) (Num (Int 10))
      (Some (lit "Annex")) None None ].

(** A quantity column of texts, one malformed and one empty field. *)
Definition raw_with_text : list RawRow :=
  [ mkRawRow (Some (lit "STN-0001")) (Some (lit "Gel Pen")) (Some (lit "Pen"))
      (Some (lit "Nos")) (Text (lit "12 boxes")) (Num (Int 10))
      (Some (lit "Main Store")) None None;
    mkRawRow (Some (lit "STN-0002")) (Some (lit "A4 Paper Rim")) (Some (lit "Paper"))
      (Some (lit "Pack")) (Num NaN) (Num (Int 10))
      (Some (lit "Annex")) None None ].

End Sample.

(** * Properties *)

(** ** The definitions on concrete inputs *)

Example format_04d_small : format_04d 1 = lit "0001".
Proof. reflexivity. Qed.

Example format_04d_wide : format_04d 12345 = lit "12345".
Proof. reflexivity. Qed.

Example format_04d_negative : format_04d (-7) = lit "-007".
Proof. reflexivity. Qed.

Example py_int_blanks_and_zeros : py_int (lit " 0012 ") = Some 12.
Proof. reflexivity. Qed.

Example py_int_underscore : py_int (lit "1_000") = Some 1000.
Proof. reflexivity. Qed.

Example py_int_letters : py_int (lit "12a") = None.
Proof. reflexivity. Qed.

Example py_int_empty : py_int (lit "") = None.
Proof. reflexivity. Qed.

Example py_int_trailing_tab : py_int (lit "12" ++ [ascii_of_nat 9]) = Some 12.
Proof. reflexivity. Qed.

Example py_int_file_separator : py_int (lit "12" ++ [ascii_of_nat 28]) = None.
Proof. reflexivity. Qed.

Example strip_ws_file_separator :
  strip_ws (ascii_of_nat 28 :: lit "ab" ++ [ascii_of_nat 31]) = lit "ab".
Proof. reflexivity. Qed.

Example id_suffix_last_piece : id_suffix (lit "STN-A-0042") = lit "0042".
Proof. reflexivity. Qed.

Example mode_words : mode_word Issue = lit "Issue" /\ mode_word Receive = lit "Receive".
Proof. split; reflexivity. Qed.

Example generate_item_id_sample : generate_item_id Sample.stock = lit "STN-0008".
Proof. reflexivity. Qed.

Example generate_item_id_separator_suffix :
  generate_item_id [mkRow (Some (lit "STN-12" ++ [ascii_of_nat 28])) None None
                      None 0 0 None None None]
  = lit "STN-0001".
Proof. reflexivity. Qed.

Example generate_item_id_unparsed :
  generate_item_id [set_item_name None (mkRow (Some (lit "legacy-x")) None None
                                          None 0 0 None None None)]
  = lit "STN-0001".
Proof. reflexivity. Qed.

Example issue_three_of_five :
  option_map quantity
    (nth_error
       (table_after
          (page_issue_receive Sample.stock (Some (lit "STN-0001")) Issue 3
             (lit "office") Sample.now) Sample.stock) 0)
  = Some 2.
Proof. reflexivity. Qed.

Example low_stock_filter :
  apply_filters Sample.stock [] [] true = [Sample.pens; Sample.files].
Proof. reflexivity. Qed.

Example category_filter_pen :
  apply_filters Sample.stock [lit "Pen"] [] false = [Sample.pens].
Proof. reflexivity. Qed.

(** ** Text primitives *)

Section TextFacts.

Lemma str_eqb_eq (a b : pystr) : str_eqb a b = true <-> a = b.
Proof.
  revert b; induction a as [|x a IH]; intros [|y b]; simpl;
    try (split; [discriminate | congruence]); try tauto.
  rewrite andb_true_iff, Ascii.eqb_eq, IH.
  split; [intros [-> ->]; reflexivity | intros E; injection E; auto].
Qed.

Lemma str_eqb_refl (a : pystr) : str_eqb a a = true.
Proof. apply str_eqb_eq; reflexivity. Qed.

Lemma digit_char_ok (d : Z) :
  0 <= d < 10 -> is_digit (digit_char d) = true /\ digit_val (digit_char d) = d.
Proof.
  intros H.
  assert (C : d = 0 \/ d = 1 \/ d = 2 \/ d = 3 \/ d = 4 \/ d = 5 \/ d = 6
              \/ d = 7 \/ d = 8 \/ d = 9) by lia.
  repeat (destruct C as [-> | C]; [split; reflexivity |]).
  subst; split; reflexivity.
Qed.

Lemma digit_not_space (c : ascii) : is_digit c = true -> is_space c = false.
Proof.
  unfold is_digit, is_space; cbv zeta.
  rewrite andb_true_iff, !N.leb_le; intros [H1 H2].
  apply orb_false_iff; split; apply andb_false_iff.
  - right; apply N.leb_gt; lia.
  - right; apply N.leb_gt; lia.
Qed.

Lemma digit_not_int_space (c : ascii) :
  is_digit c = true -> is_int_space c = false.
Proof.
  unfold is_digit, is_int_space; cbv zeta.
  rewrite andb_true_iff, !N.leb_le; intros [H1 H2].
  apply orb_false_iff; split; [apply andb_false_iff; right; apply N.leb_gt
                              | apply N.eqb_neq]; lia.
Qed.

Lemma digit_not_char (c x : ascii) :
  is_digit c = true -> is_digit x = false -> Ascii.eqb c x = false.
Proof.
  intros Hc Hx; destruct (Ascii.eqb_spec c x); [congruence | reflexivity].
Qed.

Lemma digit_val_nonneg (c : ascii) : is_digit c = true -> 0 <= digit_val c.
Proof.
  unfold is_digit, digit_val; cbv zeta.
  rewrite andb_true_iff, !N.leb_le; lia.
Qed.

(** *** Stripping *)

Lemma dropwhile_keep (p : ascii -> bool) (s : pystr) :
  match s with [] => True | c :: _ => p c = false end -> dropwhile p s = s.
Proof. destruct s as [|c s]; simpl; [reflexivity | intros ->; reflexivity]. Qed.

Lemma dropwhile_incl (p : ascii -> bool) (s : pystr) (c : ascii) :
  In c (dropwhile p s) -> In c s.
Proof.
  induction s as [|x s IH]; simpl; [tauto |].
  destruct (p x); simpl; tauto.
Qed.

Lemma strip_incl (p : ascii -> bool) (s : pystr) (c : ascii) :
  In c (strip p s) -> In c s.
Proof.
  unfold strip, rstrip, lstrip; intros H.
  rewrite <- in_rev in H; apply dropwhile_incl in H.
  rewrite <- in_rev in H; apply dropwhile_incl in H; exact H.
Qed.

Lemma rstrip_snoc (p : ascii -> bool) (s : pystr) (c : ascii) :
  p c = false -> rstrip p (s ++ [c]) = s ++ [c].
Proof.
  intros H; unfold rstrip.
  rewrite rev_app_distr; simpl; rewrite H; simpl.
  rewrite rev_involutive; reflexivity.
Qed.

Lemma strip_all_kept (p : ascii -> bool) (s : pystr) :
  Forall (fun c => p c = false) s -> strip p s = s.
Proof.
  intros H; unfold strip, lstrip.
  rewrite dropwhile_keep by (destruct H; auto).
  induction s as [|c s' _] using rev_ind; [reflexivity |].
  apply rstrip_snoc.
  rewrite Forall_forall in H; apply H, in_or_app; right; left; reflexivity.
Qed.

(** *** Integer literals *)

Lemma int_body_digit_first (b b' : bool) (acc : Z) (c : ascii) (s : pystr) :
  is_digit c = true -> int_body b acc (c :: s) = int_body b' acc (c :: s).
Proof. intros H; simpl; rewrite H; reflexivity. Qed.

Lemma int_body_snoc (s : pystr) (c : ascii) :
  is_digit c = true ->
  forall b acc v, int_body b acc s = Some v ->
    int_body b acc (s ++ [c]) = Some (v * 10 + digit_val c).
Proof.
  intros Hc; induction s as [|x s IH]; intros b acc v; simpl.
  - destruct b; [| discriminate].
    intros [= ->]; rewrite Hc; reflexivity.
  - destruct (is_digit x); [apply IH |].
    destruct (Ascii.eqb x "_"); [| discriminate].
    destruct b; [apply IH | discriminate].
Qed.

Lemma int_body_nonneg (s : pystr) :
  forall b acc v, 0 <= acc -> int_body b acc s = Some v -> 0 <= v.
Proof.
  induction s as [|x s IH]; intros b acc v Hacc; simpl.
  - destruct b; [intros [= <-]; exact Hacc | discriminate].
  - destruct (is_digit x) eqn:Hx.
    + apply IH. pose proof (digit_val_nonneg x Hx). lia.
    + destruct (Ascii.eqb x "_"); [| discriminate].
      destruct b; [apply IH; exact Hacc | discriminate].
Qed.

Lemma py_int_all_digits (s : pystr) :
  Forall (fun c => is_digit c = true) s -> py_int s = int_body false 0 s.
Proof.
  intros H; unfold py_int.
  rewrite strip_all_kept
    by (eapply Forall_impl; [| exact H]; intros c; apply digit_not_int_space).
  destruct H as [|c s Hc _]; [reflexivity |].
  rewrite !(digit_not_char c) by (exact Hc || reflexivity).
  reflexivity.
Qed.

Lemma py_int_nonneg (s : pystr) (v : Z) :
  ~ In "-"%char s -> py_int s = Some v -> 0 <= v.
Proof.
  unfold py_int; intros Hno.
  destruct (strip is_int_space s) as [|c r] eqn:E; [discriminate |].
  destruct (Ascii.eqb_spec c "-") as [-> | _].
  - exfalso; apply Hno, (strip_incl is_int_space); rewrite E; left; reflexivity.
  - destruct (Ascii.eqb c "+"); apply int_body_nonneg; lia.
Qed.

(** *** Decimal digits *)

Lemma digits_from_app (fuel : nat) :
  forall n acc, digits_from fuel n acc = digits_from fuel n [] ++ acc.
Proof.
  induction fuel as [|fuel IH]; intros n acc; simpl; [reflexivity |].
  destruct (n <? 10); [reflexivity |].
  rewrite (IH _ (_ :: acc)), (IH _ [_]), <- app_assoc; reflexivity.
Qed.

Lemma digits_from_all_digits (fuel : nat) :
  forall n acc,
    Forall (fun c => is_digit c = true) acc ->
    Forall (fun c => is_digit c = true) (digits_from fuel n acc).
Proof.
  induction fuel as [|fuel IH]; intros n acc H; simpl; [exact H |].
  assert (Forall (fun c => is_digit c = true) (digit_char (n mod 10) :: acc)).
  { constructor; [| exact H].
    apply digit_char_ok, Z.mod_pos_bound; lia. }
  destruct (n <? 10); auto.
Qed.

Lemma digits_from_step (fuel : nat) (n : Z) (acc : pystr) :
  digits_from (S fuel) n acc =
  if n <? 10 then digit_char (n mod 10) :: acc
  else digits_from fuel (n / 10) (digit_char (n mod 10) :: acc).
Proof. reflexivity. Qed.

Lemma digits_from_parse (fuel : nat) :
  forall n, 0 <= n < 2 ^ Z.of_nat fuel ->
    int_body false 0 (digits_from (S fuel) n []) = Some n.
Proof.
  induction fuel as [|fuel IH]; intros n Hn.
  - assert (n = 0) as -> by (change (2 ^ Z.of_nat 0) with 1 in Hn; lia).
    reflexivity.
  - rewrite digits_from_step. destruct (Z.ltb_spec n 10) as [Hlt | Hge].
    + cbn [int_body]. destruct (digit_char_ok (n mod 10)) as [-> ->];
        [apply Z.mod_pos_bound; lia |].
      rewrite Z.mod_small by lia; reflexivity.
    + rewrite digits_from_app.
      rewrite (int_body_snoc _ _ (proj1 (digit_char_ok (n mod 10)
                 (Z.mod_pos_bound n 10 ltac:(lia)))) _ _ (n / 10)).
      * rewrite (proj2 (digit_char_ok (n mod 10) (Z.mod_pos_bound n 10 ltac:(lia)))).
        f_equal. pose proof (Z.div_mod n 10 ltac:(lia)). lia.
      * apply IH. rewrite Nat2Z.inj_succ, Z.pow_succ_r in Hn by lia.
        split; [apply Z.div_pos; lia |].
        apply Z.div_lt_upper_bound; lia.
Qed.

Lemma digits_parse (n : Z) : 0 <= n -> int_body false 0 (digits n) = Some n.
Proof.
  intros Hn; unfold digits; apply digits_from_parse.
  rewrite Nat2Z.inj_succ, Z2Nat.id by apply Z.log2_nonneg.
  split; [exact Hn |].
  destruct (Z.eq_dec n 0) as [-> | Hz]; [reflexivity |].
  apply Z.log2_spec; lia.
Qed.

Lemma digits_all_digits (n : Z) : Forall (fun c => is_digit c = true) (digits n).
Proof. apply digits_from_all_digits; constructor. Qed.

Lemma digits_not_nil (n : Z) : digits n <> [].
Proof.
  unfold digits; rewrite digits_from_step.
  destruct (n <? 10); [discriminate |].
  rewrite digits_from_app; intros H; apply app_eq_nil in H; destruct H; discriminate.
Qed.

Lemma zeros_parse (k : nat) (c : ascii) (s : pystr) :
  is_digit c = true ->
  forall b, int_body b 0 (repeat "0"%char k ++ c :: s) = int_body b 0 (c :: s).
Proof.
  intros Hc; induction k as [|k IH]; intros b; [reflexivity |].
  change (int_body b 0 (repeat "0"%char (S k) ++ c :: s))
    with (int_body true 0 (repeat "0"%char k ++ c :: s)).
  rewrite IH; apply int_body_digit_first; exact Hc.
Qed.

Lemma format_04d_nonneg (n : Z) :
  0 <= n -> exists k, format_04d n = repeat "0"%char k ++ digits n.
Proof.
  intros Hn; unfold format_04d; cbv zeta.
  destruct (Z.ltb_spec n 0); [lia |].
  rewrite Z.abs_eq by exact Hn; eexists; reflexivity.
Qed.

Lemma format_04d_all_digits (n : Z) :
  0 <= n -> Forall (fun c => is_digit c = true) (format_04d n).
Proof.
  intros Hn; destruct (format_04d_nonneg n Hn) as [k ->].
  apply Forall_app; split; [| apply digits_all_digits].
  apply Forall_forall; intros c Hc; apply repeat_spec in Hc; subst; reflexivity.
Qed.

(** Reading back a formatted number gives the number. *)
Lemma py_int_format_04d (n : Z) : 0 <= n -> py_int (format_04d n) = Some n.
Proof.
  intros Hn; rewrite py_int_all_digits by (apply format_04d_all_digits; exact Hn).
  destruct (format_04d_nonneg n Hn) as [k ->].
  pose proof (digits_parse n Hn) as P.
  pose proof (digits_all_digits n) as D.
  destruct (digits n) as [|c s] eqn:E; [discriminate |].
  rewrite zeros_parse; [exact P | inversion D; assumption].
Qed.

(** *** Splitting at a character *)

Lemma split_char_not_nil (sep : ascii) (s : pystr) : split_char sep s <> [].
Proof.
  destruct s as [|c s]; simpl; [discriminate |].
  destruct (Ascii.eqb c sep); [discriminate |].
  destruct (split_char sep s); discriminate.
Qed.

Lemma split_char_whole (sep : ascii) (s : pystr) :
  ~ In sep s -> split_char sep s = [s].
Proof.
  induction s as [|c s IH]; simpl; intros H; [reflexivity |].
  destruct (Ascii.eqb_spec c sep) as [-> | _]; [tauto |].
  rewrite IH by tauto; reflexivity.
Qed.

Lemma split_char_pieces (sep : ascii) (s : pystr) :
  Forall (fun w => ~ In sep w) (split_char sep s).
Proof.
  induction s as [|c s IH]; simpl; [constructor; auto |].
  destruct (Ascii.eqb_spec c sep) as [-> | Hne]; [constructor; auto |].
  destruct (split_char sep s) as [|w ws]; [constructor; [simpl; intuition | constructor] |].
  inversion IH; subst; constructor; [| assumption].
  simpl; intuition.
Qed.

Lemma last_cons_not_nil {A : Type} (x : A) (l : list A) (d : A) :
  l <> [] -> last (x :: l) d = last l d.
Proof. destruct l; [congruence | reflexivity]. Qed.

Lemma split_char_two (sep : ascii) (p w : pystr) :
  exists w0 w1 ws, split_char sep (p ++ sep :: w) = w0 :: w1 :: ws.
Proof.
  induction p as [|c p IH]; simpl.
  - rewrite Ascii.eqb_refl.
    destruct (split_char sep w) as [|w1 ws] eqn:E;
      [exfalso; exact (split_char_not_nil sep w E) |].
    exists [], w1, ws; reflexivity.
  - destruct IH as (w0 & w1 & ws & ->).
    destruct (Ascii.eqb c sep); do 3 eexists; reflexivity.
Qed.

Lemma last_split_char_app (sep : ascii) (p w d : pystr) :
  last (split_char sep (p ++ sep :: w)) d = last (split_char sep w) d.
Proof.
  induction p as [|c p IH].
  - simpl; rewrite Ascii.eqb_refl.
    apply last_cons_not_nil, split_char_not_nil.
  - rewrite <- IH.
    destruct (split_char_two sep p w) as (w0 & w1 & ws & E).
    simpl; rewrite E.
    destruct (Ascii.eqb c sep); reflexivity.
Qed.

Lemma last_In {A : Type} (l : list A) (d : A) : l <> [] -> In (last l d) l.
Proof.
  induction l as [|x l IH]; [congruence |]; intros _.
  destruct l as [|y l]; [left; reflexivity |].
  right; apply IH; discriminate.
Qed.

Lemma id_suffix_no_dash (x : pystr) : ~ In "-"%char (id_suffix x).
Proof.
  unfold id_suffix.
  pose proof (split_char_pieces "-" x) as F.
  rewrite Forall_forall in F; apply F, last_In, split_char_not_nil.
Qed.

(** The suffix of a generated id is its number field. *)
Lemma id_suffix_generated (n : Z) :
  0 <= n -> id_suffix (lit "STN-" ++ format_04d n) = format_04d n.
Proof.
  intros Hn; unfold id_suffix.
  change (lit "STN-" ++ format_04d n)
    with (lit "STN" ++ "-"%char :: format_04d n).
  rewrite last_split_char_app, split_char_whole; [reflexivity |].
  intros H. pose proof (format_04d_all_digits n Hn) as D.
  rewrite Forall_forall in D; apply D in H; discriminate.
Qed.

End TextFacts.

(** ** generate_item_id *)

Lemma collect_nums_from (ids : list pystr) :
  forall nums,
    fold_left
      (fun nums x =>
         match py_int (id_suffix x) with
         | Some n => nums ++ [n]
         | None => nums
         end)
      ids nums
    = nums ++ Spec.parsed_suffixes ids.
Proof.
  induction ids as [|x ids IH]; intros nums; simpl.
  - rewrite app_nil_r; reflexivity.
  - rewrite IH; destruct (py_int (id_suffix x)); [| reflexivity].
    rewrite <- app_assoc; reflexivity.
Qed.

(** The loop collects the parsed suffixes, in order. *)
Lemma collect_nums_parsed (ids : list pystr) :
  collect_nums ids = Spec.parsed_suffixes ids.
Proof. unfold collect_nums; rewrite collect_nums_from; reflexivity. Qed.

Lemma maximum_max (ns : list Z) :
  forall n m, Spec.maximum (Z.max n m) ns = Z.max n (Spec.maximum m ns).
Proof.
  induction ns as [|x ns IH]; intros n m; simpl; [reflexivity |].
  rewrite Z.max_assoc; reflexivity.
Qed.

Lemma py_max_maximum (ns : list Z) : forall n, py_max n ns = Spec.maximum n ns.
Proof.
  unfold py_max; induction ns as [|m ns IH]; intros n; simpl; [reflexivity |].
  rewrite IH, maximum_max; reflexivity.
Qed.

(** [Spec.maximum] is the greatest element. *)
Lemma maximum_upper (ns : list Z) :
  forall n x, In x (n :: ns) -> x <= Spec.maximum n ns.
Proof.
  induction ns as [|m ns IH]; intros n x; simpl.
  - intros [-> | []]; lia.
  - intros [-> | H]; [lia |].
    specialize (IH m x H); lia.
Qed.

Lemma maximum_attained (ns : list Z) :
  forall n, In (Spec.maximum n ns) (n :: ns).
Proof.
  induction ns as [|m ns IH]; intros n; simpl; [auto |].
  destruct (Z.max_spec n (Spec.maximum m ns)) as [[_ ->] | [_ ->]]; [| auto].
  right; apply IH.
Qed.

Lemma parsed_suffixes_In (ids : list pystr) (x : pystr) (v : Z) :
  In x ids -> py_int (id_suffix x) = Some v -> In v (Spec.parsed_suffixes ids).
Proof.
  induction ids as [|y ids IH]; simpl; [tauto |].
  intros [-> | H] P.
  - rewrite P; left; reflexivity.
  - destruct (py_int (id_suffix y)); [right |]; auto.
Qed.

Lemma parsed_suffixes_nonneg (ids : list pystr) :
  Forall (fun v => 0 <= v) (Spec.parsed_suffixes ids).
Proof.
  induction ids as [|x ids IH]; simpl; [constructor |].
  destruct (py_int (id_suffix x)) as [v|] eqn:P; [| exact IH].
  constructor; [| exact IH].
  exact (py_int_nonneg _ _ (id_suffix_no_dash x) P).
Qed.

Lemma existing_ids_In (df : DataFrame) (x : pystr) :
  In (Some x) (map item_id df) <-> In x (existing_ids df).
Proof.
  induction df as [|r df IH]; simpl; [tauto |].
  destruct (item_id r) as [y|]; simpl; rewrite <- IH.
  - split; (intros [H | H]; [left; congruence | right; exact H]).
  - split; [intros [H | H]; [discriminate | exact H] | auto].
Qed.

Lemma next_num_positive (df : DataFrame) : 1 <= next_num df.
Proof.
  unfold next_num; rewrite collect_nums_parsed.
  pose proof (parsed_suffixes_nonneg (existing_ids df)) as F.
  destruct (Spec.parsed_suffixes (existing_ids df)) as [|n ns]; [lia |].
  rewrite py_max_maximum.
  pose proof (maximum_upper ns n n (or_introl eq_refl)).
  inversion F; subst; lia.
Qed.

Lemma next_num_above (df : DataFrame) (v : Z) :
  In v (Spec.parsed_suffixes (existing_ids df)) -> v < next_num df.
Proof.
  unfold next_num; rewrite collect_nums_parsed.
  destruct (Spec.parsed_suffixes (existing_ids df)) as [|n ns]; [intros [] |].
  intros H; rewrite py_max_maximum.
  pose proof (maximum_upper ns n v H); lia.
Qed.

Lemma generate_item_id_is_nextId (df : DataFrame) :
  generate_item_id df = Spec.nextId df.
Proof.
  unfold generate_item_id, Spec.nextId, next_num.
  destruct df as [|r df]; [reflexivity |].
  cbn [empty]; rewrite collect_nums_parsed.
  destruct (Spec.parsed_suffixes (existing_ids (r :: df))) as [|n ns];
    [reflexivity | rewrite py_max_maximum; reflexivity].
Qed.

Lemma generate_item_id_fresh (df : DataFrame) :
  ~ In (Some (generate_item_id df)) (map item_id df).
Proof.
  intros H.
  destruct df as [|r df]; [exact H |].
  unfold generate_item_id in H; cbn [empty] in H.
  pose proof (next_num_positive (r :: df)) as Pos.
  apply existing_ids_In in H.
  apply (parsed_suffixes_In _ _ (next_num (r :: df))) in H.
  - apply next_num_above in H; lia.
  - rewrite id_suffix_generated by lia.
    apply py_int_format_04d; lia.
Qed.

Lemma parsed_suffixes_from (ids : list pystr) (v : Z) :
  In v (Spec.parsed_suffixes ids) ->
  exists x, In x ids /\ py_int (id_suffix x) = Some v.
Proof.
  induction ids as [|y ids IH]; simpl; [tauto |].
  destruct (py_int (id_suffix y)) as [w|] eqn:P.
  - intros [<- | H]; [exists y; auto |].
    destruct (IH H) as (x & Hx & Px); exists x; auto.
  - intros H; destruct (IH H) as (x & Hx & Px); exists x; auto.
Qed.

Lemma next_num_attained (df : DataFrame) :
  (next_num df = 1
   /\ forall x, In (Some x) (map item_id df) -> py_int (id_suffix x) = None)
  \/ exists x, In (Some x) (map item_id df)
               /\ py_int (id_suffix x) = Some (next_num df - 1).
Proof.
  unfold next_num; rewrite collect_nums_parsed.
  destruct (Spec.parsed_suffixes (existing_ids df)) as [|n ns] eqn:E.
  - left; split; [reflexivity |].
    intros x Hx; apply existing_ids_In in Hx.
    destruct (py_int (id_suffix x)) as [v|] eqn:P; [| reflexivity].
    pose proof (parsed_suffixes_In _ _ _ Hx P) as H; rewrite E in H; destruct H.
  - right; rewrite py_max_maximum.
    pose proof (maximum_attained ns n) as A; rewrite <- E in A.
    destruct (parsed_suffixes_from _ _ A) as (x & Hx & Px).
    exists x; split; [apply existing_ids_In; exact Hx |].
    rewrite Px; f_equal; lia.
Qed.

(** C1.  generate_item_id is the specification's nextId: STN-0001 on the
    empty table; otherwise the integer after the last '-' of every existing
    id is parsed, ids whose suffix does not parse are ignored, and the
    maximum plus one (1 when none parses) is formatted as STN-%04d.  The id
    returned is the id of no row of the table.  Spelled out on the code's own
    terms: the number formatted is above every suffix that parses, and it is
    1 when none parses and otherwise one more than a suffix that does. *)
Theorem generate_item_id_next_and_fresh (df : DataFrame) :
  generate_item_id df = Spec.nextId df
  /\ generate_item_id [] = lit "STN-0001"
  /\ ~ In (Some (generate_item_id df)) (map item_id df)
  /\ generate_item_id df = lit "STN-" ++ format_04d (next_num df)
  /\ (forall x v,
        In (Some x) (map item_id df) -> py_int (id_suffix x) = Some v ->
        v < next_num df)
  /\ ((next_num df = 1
       /\ forall x, In (Some x) (map item_id df) -> py_int (id_suffix x) = None)
      \/ exists x, In (Some x) (map item_id df)
                   /\ py_int (id_suffix x) = Some (next_num df - 1)).
Proof.
  split; [apply generate_item_id_is_nextId |].
  split; [reflexivity |].
  split; [apply generate_item_id_fresh |].
  split; [destruct df; reflexivity |].
  split; [| apply next_num_attained].
  intros x v Hx P; apply next_num_above.
  apply existing_ids_In in Hx; exact (parsed_suffixes_In _ _ _ Hx P).
Qed.

(** ** Looking a row up and writing it *)

Lemma first_match_split (selected_id : cell) (df : DataFrame) (idx : nat) :
  first_match selected_id df = Some idx ->
  exists before r after,
    df = before ++ r :: after /\ List.length before = idx
    /\ id_matches selected_id r = true
    /\ Forall (fun x => id_matches selected_id x = false) before.
Proof.
  revert idx; induction df as [|x df IH]; intros idx; simpl; [discriminate |].
  destruct (id_matches selected_id x) eqn:M.
  - intros [= <-]; exists [], x, df; auto.
  - destruct (first_match selected_id df) as [i|]; [| discriminate].
    intros [= <-].
    destruct (IH i eq_refl) as (before & r & after & -> & L & Mr & F).
    exists (x :: before), r, after; simpl; auto.
Qed.

Lemma first_match_none (selected_id : cell) (df : DataFrame) :
  first_match selected_id df = None <->
  (forall r, In r df -> id_matches selected_id r = false).
Proof.
  induction df as [|x df IH]; simpl; [intuition |].
  destruct (id_matches selected_id x) eqn:M.
  - split; [discriminate |].
    intros H; rewrite (H x) in M by auto; discriminate.
  - destruct (first_match selected_id df); simpl.
    + split; [discriminate |].
      intros H. assert (Some n = None) by (apply IH; auto). discriminate.
    + split; [| reflexivity].
      intros _ r [<- | H]; [exact M | apply IH; auto].
Qed.

Lemma first_match_in_range (selected_id : cell) (df : DataFrame) (idx : nat) :
  first_match selected_id df = Some idx ->
  exists r, nth_error df idx = Some r /\ id_matches selected_id r = true.
Proof.
  intros H; destruct (first_match_split _ _ _ H) as (b & r & a & -> & <- & M & _).
  exists r; split; [| exact M].
  rewrite nth_error_app2, Nat.sub_diag by lia; reflexivity.
Qed.

Lemma at_set_nth (f : Row -> Row) (df : DataFrame) :
  forall idx r, nth_error df idx = Some r ->
    nth_error (at_set idx f df) idx = Some (f r)
    /\ (forall j, j <> idx -> nth_error (at_set idx f df) j = nth_error df j)
    /\ List.length (at_set idx f df) = List.length df.
Proof.
  induction df as [|x df IH]; intros [|i] r; simpl; try discriminate.
  - intros [= ->]; repeat split; intros [|j]; simpl; congruence.
  - intros H; destruct (IH i r H) as (H1 & H2 & H3).
    repeat split; [exact H1 | | congruence].
    intros [|j] Hj; simpl; [reflexivity | apply H2; congruence].
Qed.

Lemma at_set_twice (f g : Row -> Row) (df : DataFrame) :
  forall idx, at_set idx g (at_set idx f df) = at_set idx (fun r => g (f r)) df.
Proof.
  induction df as [|x df IH]; intros [|i]; simpl; try reflexivity.
  rewrite IH; reflexivity.
Qed.

Lemma at_set_Forall (P : Row -> Prop) (f : Row -> Row) (df : DataFrame) :
  forall idx,
    Forall P df ->
    (forall r, nth_error df idx = Some r -> P (f r)) ->
    Forall P (at_set idx f df).
Proof.
  induction df as [|x df IH]; intros [|i] F H; simpl; try exact F;
    inversion F; subst; constructor; auto.
Qed.

(** An id offered by a select box is found, unless it is NaN. *)
Lemma selected_id_found (df : DataFrame) (x : pystr) :
  In (Some x) (selectable_ids df) ->
  exists idx, first_match (Some x) df = Some idx.
Proof.
  unfold selectable_ids; intros H.
  destruct (first_match (Some x) df) as [idx|] eqn:E; [exists idx; reflexivity |].
  apply in_map_iff in H; destruct H as (r & Hid & Hr).
  rewrite first_match_none in E; specialize (E r Hr).
  unfold id_matches in E; rewrite Hid, str_eqb_refl in E; discriminate.
Qed.

(** ** page_issue_receive *)

Lemma mode_is_issue (mode : TxnMode) :
  startswith (mode_text mode) (lit "Issue") =
  match mode with Issue => true | Receive => false end.
Proof. destruct mode; reflexivity. Qed.

(** What the page does once the selected row is found. *)
Lemma page_issue_receive_found (df : DataFrame) (selected_id : cell)
    (mode : TxnMode) (qty : Z) (reason now : pystr) (idx : nat) (r : Row) :
  first_match selected_id df = Some idx ->
  nth_error df idx = Some r ->
  page_issue_receive df selected_id mode qty reason now =
  match mode with
  | Issue =>
      if qty >? quantity r
      then StError (InsufficientStockError qty (quantity r))
      else Saved (at_set idx (fun x => posted_row x (quantity r - qty) mode qty reason now) df)
             (mode_word mode ++ lit "d " ++ str_of_int qty
                ++ lit " units. New quantity: " ++ str_of_int (quantity r - qty) ++ lit ".")
  | Receive =>
      Saved (at_set idx (fun x => posted_row x (quantity r + qty) mode qty reason now) df)
        (mode_word mode ++ lit "d " ++ str_of_int qty
           ++ lit " units. New quantity: " ++ str_of_int (quantity r + qty) ++ lit ".")
  end.
Proof.
  intros Hidx Hr; unfold page_issue_receive.
  destruct df as [|x df]; [destruct idx; discriminate |].
  cbn [empty]; rewrite Hidx, Hr, mode_is_issue.
  assert (W : forall new_qty,
    at_set idx
      (set_remarks
         (Some (strip is_sep
            (match nth_error
                     (at_set idx (set_last_updated (Some now))
                        (at_set idx (set_quantity new_qty) (x :: df))) idx with
             | Some r' => match remarks r' with Some s => s | None => [] end
             | None => []
             end ++ lit " | " ++ audit_line now mode qty reason))))
      (at_set idx (set_last_updated (Some now))
         (at_set idx (set_quantity new_qty) (x :: df)))
    = at_set idx (fun y => posted_row y new_qty mode qty reason now) (x :: df)).
  { intros new_qty.
    destruct (at_set_nth (set_quantity new_qty) _ _ _ Hr) as (N1 & _ & _).
    destruct (at_set_nth (set_last_updated (Some now)) _ _ _ N1) as (N2 & _ & _).
    rewrite N2, !at_set_twice.
    clear N1 N2 Hidx. revert idx Hr.
    generalize (x :: df) as l. clear x df.
    induction l as [|y l IH]; intros [|i]; simpl; try discriminate.
    - intros [= ->]; reflexivity.
    - intros H; rewrite IH by exact H; reflexivity. }
  destruct mode; [destruct (qty >? quantity r); [reflexivity |] |];
    cbv zeta; rewrite W; reflexivity.
Qed.

Lemma page_issue_receive_saved (df : DataFrame) (selected_id : cell)
    (mode : TxnMode) (qty : Z) (reason now : pystr) (df' : DataFrame) (msg : pystr) :
  page_issue_receive df selected_id mode qty reason now = Saved df' msg ->
  exists idx r new_qty,
    first_match selected_id df = Some idx /\ nth_error df idx = Some r
    /\ new_qty = match mode with
                 | Issue => quantity r - qty
                 | Receive => quantity r + qty
                 end
    /\ match mode with Issue => qty <= quantity r | Receive => True end
    /\ df' = at_set idx (fun x => posted_row x new_qty mode qty reason now) df.
Proof.
  intros H.
  destruct (first_match selected_id df) as [idx|] eqn:Hidx.
  - destruct (first_match_in_range _ _ _ Hidx) as (r & Hr & _).
    rewrite (page_issue_receive_found _ _ _ _ _ _ _ _ Hidx Hr) in H.
    exists idx, r; destruct mode.
    + destruct (Z.gtb_spec qty (quantity r)); [discriminate |].
      injection H as <- _; exists (quantity r - qty); auto.
    + injection H as <- _; exists (quantity r + qty); auto.
  - unfold page_issue_receive in H; rewrite Hidx in H.
    destruct (empty df); discriminate.
Qed.

Lemma mode_word_value (mode : TxnMode) :
  mode_word mode = match mode with Issue => lit "Issue" | Receive => lit "Receive" end.
Proof. destruct mode; reflexivity. Qed.

(** C2, as the code has it.  After every successful issue or receive the
    row's remarks are the prior remarks (empty when missing), the separator
    " | " and the line [<timestamp>] <Issue|Receive> <qty> (<reason>), with
    blanks and bars stripped from both ends: the word is the first word of
    the transaction type, Issue or Receive. *)
Theorem audit_line_appended (df : DataFrame) (selected_id : cell)
    (mode : TxnMode) (qty : Z) (reason now : pystr) (df' : DataFrame) (msg : pystr) :
  page_issue_receive df selected_id mode qty reason now = Saved df' msg ->
  exists idx r r',
    first_match selected_id df = Some idx
    /\ nth_error df idx = Some r
    /\ nth_error df' idx = Some r'
    /\ remarks r' =
       Some (strip is_sep
               (match remarks r with Some s => s | None => [] end
                ++ lit " | "
                ++ lit "[" ++ now ++ lit "] "
                ++ match mode with Issue => lit "Issue" | Receive => lit "Receive" end
                ++ lit " " ++ str_of_int qty ++ lit " (" ++ reason ++ lit ")")).
Proof.
  intros H.
  destruct (page_issue_receive_saved _ _ _ _ _ _ _ _ H)
    as (idx & r & new_qty & Hidx & Hr & _ & _ & ->).
  destruct (at_set_nth (fun x => posted_row x new_qty mode qty reason now) _ _ _ Hr)
    as (N & _ & _).
  exists idx, r, (posted_row r new_qty mode qty reason now).
  repeat split; try assumption.
  unfold posted_row, audit_line; rewrite mode_word_value; reflexivity.
Qed.

Lemma audit_line_appended_witness :
  exists idx r r',
    first_match (Some (lit "STN-0002")) Sample.stock = Some idx
    /\ nth_error Sample.stock idx = Some r
    /\ nth_error
         (table_after
            (page_issue_receive Sample.stock (Some (lit "STN-0002")) Receive 20
               (lit "PO 114") Sample.now) Sample.stock) idx = Some r'
    /\ remarks r' =
       Some (strip is_sep
               (match remarks r with Some s => s | None => [] end
                ++ lit " | "
                ++ lit "[" ++ Sample.now ++ lit "] "
                ++ lit "Receive"
                ++ lit " " ++ str_of_int 20 ++ lit " (" ++ lit "PO 114" ++ lit ")")).
Proof.
  exact (audit_line_appended Sample.stock (Some (lit "STN-0002")) Receive 20
           (lit "PO 114") Sample.now _ _ eq_refl).
Defined.

(** C2 as the specification words it fails: an issue of 3 for "office" on a
    row without remarks leaves the line with the word Issue, which is not the
    line with the word Issued. *)
Lemma audit_line_says_issue_not_issued :
  option_map remarks
    (nth_error
       (table_after
          (page_issue_receive Sample.stock (Some (lit "STN-0001")) Issue 3
             (lit "office") Sample.now) Sample.stock) 0)
  = Some (Some (lit "[2024-03-01 09:30:00] Issue 3 (office)"))
  /\ Some (lit "[2024-03-01 09:30:00] Issue 3 (office)")
     <> Some (strip is_sep
                (lit "" ++ lit " | "
                 ++ Spec.audit_line Sample.now Issue 3 (lit "office"))).
Proof.
  split; [reflexivity |].
  vm_compute; discriminate.
Qed.

(** C3.  An issue of more than the current quantity of the selected row is
    refused with the InsufficientStockError message and nothing is written:
    the table, and so the row's quantity, remarks and last_updated and every
    other row, stay as they were.  An issue of at most the current quantity
    is saved, the row's quantity is the current quantity minus qty, and no
    other row changes. *)
Theorem issue_checks_stock (df : DataFrame) (selected_id : cell) (qty : Z)
    (reason now : pystr) (idx : nat) (r : Row) :
  1 <= qty ->
  first_match selected_id df = Some idx ->
  nth_error df idx = Some r ->
  (qty > quantity r ->
     page_issue_receive df selected_id Issue qty reason now
       = StError (InsufficientStockError qty (quantity r))
     /\ table_after (page_issue_receive df selected_id Issue qty reason now) df = df)
  /\ (qty <= quantity r ->
        exists df' msg r',
          page_issue_receive df selected_id Issue qty reason now = Saved df' msg
          /\ nth_error df' idx = Some r'
          /\ quantity r' = quantity r - qty
          /\ item_id r' = item_id r
          /\ (forall j, j <> idx -> nth_error df' j = nth_error df j)
          /\ List.length df' = List.length df).
Proof.
  intros _ Hidx Hr.
  rewrite (page_issue_receive_found _ _ _ _ _ _ _ _ Hidx Hr).
  split; intros Hq.
  - destruct (Z.gtb_spec qty (quantity r)); [split; reflexivity | lia].
  - destruct (Z.gtb_spec qty (quantity r)); [lia |].
    destruct (at_set_nth (fun x => posted_row x (quantity r - qty) Issue qty reason now)
                _ _ _ Hr) as (N1 & N2 & N3).
    do 3 eexists; split; [reflexivity |].
    split; [exact N1 |]. repeat split; assumption.
Qed.

Lemma issue_checks_stock_witness :
  page_issue_receive Sample.stock (Some (lit "STN-0001")) Issue 6
    (lit "office") Sample.now
  = StError (InsufficientStockError 6 5)
  /\ table_after
       (page_issue_receive Sample.stock (Some (lit "STN-0001")) Issue 6
          (lit "office") Sample.now) Sample.stock
     = Sample.stock.
Proof.
  refine (proj1 (issue_checks_stock Sample.stock (Some (lit "STN-0001")) 6
                   (lit "office") Sample.now 0%nat Sample.pens _ eq_refl eq_refl) _);
    simpl; lia.
Defined.

(** The audit line opens with a bracket and closes with a parenthesis. *)
Lemma audit_line_shape (now : pystr) (mode : TxnMode) (qty : Z) (reason : pystr) :
  exists body, audit_line now mode qty reason = "["%char :: body ++ [")"%char].
Proof.
  exists (now ++ lit "] " ++ mode_word mode ++ lit " " ++ str_of_int qty
            ++ lit " (" ++ reason).
  unfold audit_line; change (lit "[" ++ ?x) with ("["%char :: x).
  f_equal; rewrite <- !app_assoc; reflexivity.
Qed.

Lemma strip_separator_before_line (now : pystr) (mode : TxnMode) (qty : Z)
    (reason : pystr) :
  strip is_sep (lit " | " ++ audit_line now mode qty reason)
  = audit_line now mode qty reason.
Proof.
  destruct (audit_line_shape now mode qty reason) as [body ->].
  unfold strip, lstrip.
  change (dropwhile is_sep (lit " | " ++ "["%char :: body ++ [")"%char]))
    with (("["%char :: body) ++ [")"%char]).
  apply rstrip_snoc; reflexivity.
Qed.

(** C10.  When the selected row's remarks are missing (NaN) or empty, a
    successful issue or receive leaves exactly the new audit line in them:
    the missing value counts as the empty string and the blanks and bar of
    the leading separator are stripped. *)
Theorem blank_remarks_become_audit_line (df : DataFrame) (selected_id : cell)
    (mode : TxnMode) (qty : Z) (reason now : pystr) (df' : DataFrame) (msg : pystr)
    (idx : nat) (r : Row) :
  page_issue_receive df selected_id mode qty reason now = Saved df' msg ->
  first_match selected_id df = Some idx ->
  nth_error df idx = Some r ->
  remarks r = None \/ remarks r = Some [] ->
  exists r',
    nth_error df' idx = Some r'
    /\ remarks r' = Some (audit_line now mode qty reason).
Proof.
  intros H Hidx Hr Hblank.
  destruct (page_issue_receive_saved _ _ _ _ _ _ _ _ H)
    as (idx' & r0 & new_qty & Hidx' & Hr0 & _ & _ & ->).
  assert (idx' = idx) as -> by congruence.
  assert (r0 = r) as -> by congruence.
  destruct (at_set_nth (fun x => posted_row x new_qty mode qty reason now) _ _ _ Hr)
    as (N & _ & _).
  exists (posted_row r new_qty mode qty reason now); split; [exact N |].
  unfold posted_row; cbn [remarks set_remarks].
  destruct Hblank as [-> | ->]; cbn [app];
    rewrite strip_separator_before_line; reflexivity.
Qed.

Lemma blank_remarks_become_audit_line_witness :
  exists r',
    nth_error
      (table_after
         (page_issue_receive Sample.stock (Some (lit "STN-0007")) Receive 25
            (lit "PO 77") Sample.now) Sample.stock) 2 = Some r'
    /\ remarks r' = Some (lit "[2024-03-01 09:30:00] Receive 25 (PO 77)").
Proof.
  exact (blank_remarks_become_audit_line Sample.stock (Some (lit "STN-0007"))
           Receive 25 (lit "PO 77") Sample.now _ _ 2%nat Sample.files
           eq_refl eq_refl eq_refl (or_intror eq_refl)).
Defined.

(** ** item_map as a dict *)

Lemma str_eqb_sym (a b : pystr) : str_eqb a b = str_eqb b a.
Proof.
  destruct (str_eqb a b) eqn:E, (str_eqb b a) eqn:F; try reflexivity.
  - apply str_eqb_eq in E; subst; rewrite str_eqb_refl in F; discriminate.
  - apply str_eqb_eq in F; subst; rewrite str_eqb_refl in E; discriminate.
Qed.

Lemma dict_get_set (k k' : pystr) (v : cell) (d : list (pystr * cell)) :
  dict_get k (dict_set k' v d)
  = if str_eqb k' k then Some v else dict_get k d.
Proof.
  induction d as [|[k2 v2] d IH]; simpl; [reflexivity |].
  destruct (str_eqb k2 k') eqn:E; simpl.
  - apply str_eqb_eq in E; subst k2.
    destruct (str_eqb k' k); reflexivity.
  - rewrite IH.
    destruct (str_eqb k2 k) eqn:F; [| reflexivity].
    apply str_eqb_eq in F; subst k2.
    rewrite str_eqb_sym, E; reflexivity.
Qed.

Lemma dict_get_key (k : pystr) (d : list (pystr * cell)) :
  In k (map fst d) -> exists v, dict_get k d = Some v.
Proof.
  induction d as [|[k2 v2] d IH]; simpl; [tauto |].
  intros [-> | H].
  - rewrite str_eqb_refl; eauto.
  - destruct (str_eqb k2 k); eauto.
Qed.

Lemma item_map_from_values (df : DataFrame) (k : pystr) (v : cell) :
  forall d,
    dict_get k (fold_left (fun d r => dict_set (item_label r) (item_id r) d) df d)
      = Some v ->
    In v (map item_id df) \/ dict_get k d = Some v.
Proof.
  induction df as [|r df IH]; intros d; simpl; [auto |].
  intros H; apply IH in H; destruct H as [H | H]; [auto |].
  rewrite dict_get_set in H.
  destruct (str_eqb (item_label r) k); [left; left; congruence | auto].
Qed.

Lemma item_map_from_other_labels (df : DataFrame) (k : pystr) :
  (forall r, In r df -> item_label r <> k) ->
  forall d,
    dict_get k (fold_left (fun d r => dict_set (item_label r) (item_id r) d) df d)
    = dict_get k d.
Proof.
  induction df as [|r df IH]; intros H d; simpl; [reflexivity |].
  rewrite IH by (intros x Hx; apply H; right; exact Hx).
  rewrite dict_get_set.
  destruct (str_eqb (item_label r) k) eqn:E; [| reflexivity].
  apply str_eqb_eq in E; exfalso; apply (H r); [left; reflexivity | exact E].
Qed.

Lemma item_map_values (df : DataFrame) (k : pystr) (v : cell) :
  dict_get k (item_map df) = Some v -> In v (map item_id df).
Proof.
  intros H; apply item_map_from_values in H.
  destruct H as [H | H]; [exact H | discriminate].
Qed.

(** ** An id that is not in the table *)

(** C4, as the code has it.  For a selected id that matches no row of the
    table, neither the transaction page nor the update form reports an error
    message: on a table with rows the positional lookup of the selected row
    raises IndexError, on the empty table the page shows its notice and
    returns; nothing is saved either way.  An id that the select box
    delivers matches no row only when it is the missing (NaN) item_id of a
    row, and picking that row's label ends the transaction page in the same
    IndexError. *)
Theorem absent_id_raises_index_error (df : DataFrame) (selected_id : cell) :
  absent selected_id df ->
  (forall mode qty reason now,
     page_issue_receive df selected_id mode qty reason now =
       if empty df then StInfo (lit "No items in inventory. Add items first.")
       else Raised IndexError)
  /\ (forall f now,
        update_existing_item df selected_id f now =
          if empty df then StInfo (lit "No items to update. Add items first.")
          else Raised IndexError)
  /\ (forall selected,
        dict_get selected (item_map df) = Some selected_id ->
        selected_id = None
        /\ forall mode qty reason now,
             page_issue_receive_for df selected mode qty reason now =
               if empty df
               then StInfo (lit "No items in inventory. Add items first.")
               else Raised IndexError).
Proof.
  intros A; pose proof (proj2 (first_match_none _ _) A) as H.
  split; [| split].
  - intros; unfold page_issue_receive; rewrite H; reflexivity.
  - intros; unfold update_existing_item; rewrite H; reflexivity.
  - intros selected Hsel; split.
    + destruct selected_id as [x|]; [| reflexivity].
      destruct (selected_id_found df x (item_map_values _ _ _ Hsel)) as [idx Hidx].
      congruence.
    + intros; unfold page_issue_receive_for, page_issue_receive_int64,
        page_issue_receive.
      rewrite Hsel, H; destruct (empty df); reflexivity.
Qed.

Lemma absent_id_raises_index_error_witness :
  (forall mode qty reason now,
     page_issue_receive Sample.stock_with_blank_id None mode qty reason now
       = Raised IndexError)
  /\ (forall f now,
        update_existing_item Sample.stock_with_blank_id None f now
          = Raised IndexError)
  /\ (forall selected,
        dict_get selected (item_map Sample.stock_with_blank_id) = Some None ->
        (None : cell) = None
        /\ forall mode qty reason now,
             page_issue_receive_for Sample.stock_with_blank_id selected
               mode qty reason now = Raised IndexError).
Proof.
  apply (absent_id_raises_index_error Sample.stock_with_blank_id None).
  intros r _; unfold id_matches; destruct (item_id r); reflexivity.
Defined.

(** C4 as the specification words it fails.  The row Loose Sheets of the
    sample table has an empty item_id field: the select box offers its label,
    item_map gives NaN for it, NaN matches no row, and the transaction page
    and the update form end in an uncaught IndexError, which is no error
    message. *)
Lemma absent_id_is_not_an_error_message :
  In (lit "nan - Loose Sheets") (options Sample.stock_with_blank_id)
  /\ dict_get (lit "nan - Loose Sheets") (item_map Sample.stock_with_blank_id)
     = Some None
  /\ first_match None Sample.stock_with_blank_id = None
  /\ page_issue_receive_for Sample.stock_with_blank_id (lit "nan - Loose Sheets")
       Issue 1 (lit "office") Sample.now = Raised IndexError
  /\ update_existing_item Sample.stock_with_blank_id None
       Sample.stapler_form Sample.now = Raised IndexError
  /\ (forall msg, Raised IndexError <> StError msg).
Proof.
  split; [right; left; reflexivity |].
  repeat split; discriminate.
Qed.

(** ** Quantities stay non-negative *)

Lemma filter_Forall {A : Type} (P : A -> Prop) (p : A -> bool) (l : list A) :
  Forall P l -> Forall P (filter p l).
Proof.
  induction 1 as [|x l Hx _ IH]; simpl; [constructor |].
  destruct (p x); [constructor |]; assumption.
Qed.

Lemma update_existing_item_saved (df : DataFrame) (selected_id : cell)
    (f : ItemForm) (now : pystr) (df' : DataFrame) (msg : pystr) :
  update_existing_item df selected_id f now = Saved df' msg ->
  exists idx g,
    df' = at_set idx g df /\ forall r, quantity (g r) = form_quantity f.
Proof.
  unfold update_existing_item.
  destruct (empty df); [discriminate |].
  destruct (first_match selected_id df) as [idx|]; [| discriminate].
  destruct (strip_ws (form_item_name f)); [discriminate |].
  cbv zeta; rewrite !at_set_twice.
  intros [= <- _]; eexists idx, _; split; [reflexivity |].
  intros r; reflexivity.
Qed.

(** C5.  From a table whose quantities are all non-negative, an add or
    update with a non-negative quantity, an issue or receive of at least 1,
    and a delete each leave a table whose quantities are all non-negative. *)
Theorem quantities_stay_nonneg (df : DataFrame) (op : Operation) (now : pystr) :
  quantities_nonneg df ->
  inputs_in_range op ->
  quantities_nonneg (table_after (run df op now) df).
Proof.
  unfold quantities_nonneg; intros Hdf Hop.
  destruct op as [f | selected_id f | selected_id mode qty reason | selected_id];
    cbn [run inputs_in_range] in *.
  - unfold add_new_item.
    destruct (strip_ws (form_item_name f)); [exact Hdf |].
    cbn [table_after]; apply Forall_app; split; [exact Hdf |].
    constructor; [exact Hop | constructor].
  - destruct (update_existing_item df selected_id f now) as [df' msg | | |] eqn:E;
      try exact Hdf.
    destruct (update_existing_item_saved _ _ _ _ _ _ E) as (idx & g & -> & Hg).
    cbn [table_after]; apply at_set_Forall; [exact Hdf |].
    intros r _; rewrite Hg; exact Hop.
  - destruct (page_issue_receive df selected_id mode qty reason now)
      as [df' msg | | |] eqn:E; try exact Hdf.
    destruct (page_issue_receive_saved _ _ _ _ _ _ _ _ E)
      as (idx & r & new_qty & _ & Hr & Hnew & Hle & ->).
    cbn [table_after]; apply at_set_Forall; [exact Hdf |].
    intros r' Hr'; assert (r' = r) as -> by congruence.
    unfold posted_row; cbn [quantity set_remarks set_last_updated set_quantity].
    pose proof (nth_error_In _ _ Hr) as Hin.
    rewrite Forall_forall in Hdf; specialize (Hdf r Hin).
    destruct mode; lia.
  - unfold delete_selected_item.
    destruct (empty df); [exact Hdf |].
    cbn [table_after]; apply filter_Forall; exact Hdf.
Qed.

Lemma quantities_stay_nonneg_witness :
  quantities_nonneg
    (table_after
       (run Sample.stock
          (OpTransaction (Some (lit "STN-0001")) Issue 5 (lit "office"))
          Sample.now) Sample.stock).
Proof.
  apply (quantities_stay_nonneg Sample.stock
           (OpTransaction (Some (lit "STN-0001")) Issue 5 (lit "office")) Sample.now).
  - repeat constructor; simpl; lia.
  - simpl; lia.
Defined.

(** ** apply_filters *)

Lemma filter_filter {A : Type} (p q : A -> bool) (l : list A) :
  filter q (filter p l) = filter (fun x => p x && q x) l.
Proof.
  induction l as [|x l IH]; simpl; [reflexivity |].
  destruct (p x); simpl; [destruct (q x); rewrite IH |]; auto.
Qed.

Lemma filter_all {A : Type} (p : A -> bool) (l : list A) :
  (forall x, p x = true) -> filter p l = l.
Proof.
  intros H; induction l as [|x l IH]; simpl; [reflexivity |].
  rewrite H, IH; reflexivity.
Qed.

Lemma filter_subsequence {A : Type} (p : A -> bool) (l : list A) :
  Spec.subsequence (filter p l) l.
Proof.
  induction l as [|x l IH]; simpl; [constructor |].
  destruct (p x); constructor; exact IH.
Qed.

Lemma apply_filters_is_filter (df : DataFrame)
    (category_filter location_filter : list pystr) (low_stock_only : bool) :
  apply_filters df category_filter location_filter low_stock_only
  = filter (Spec.passes category_filter location_filter low_stock_only) df.
Proof.
  unfold apply_filters, Spec.passes, Spec.unrestricted_or_member, low_stock.
  destruct category_filter as [|c cs], location_filter as [|l ls], low_stock_only;
    cbv zeta; rewrite ?filter_filter;
    first [apply filter_ext | symmetry; apply filter_all]; intros r;
    cbn [implb andb]; rewrite ?andb_true_r, ?andb_assoc; reflexivity.
Qed.

(** C6.  apply_filters returns exactly the rows that pass the conjunction
    of: category among the supplied categories (when some are supplied),
    location among the supplied locations (when some are supplied) and
    quantity <= reorder_level (when low_stock_only is set).  An empty filter
    argument restricts nothing, and the rows returned keep the relative order
    they have in the table. *)
Theorem apply_filters_exact (df : DataFrame)
    (category_filter location_filter : list pystr) (low_stock_only : bool) :
  apply_filters df category_filter location_filter low_stock_only
    = filter (Spec.passes category_filter location_filter low_stock_only) df
  /\ (forall r,
        In r (apply_filters df category_filter location_filter low_stock_only)
        <-> In r df
            /\ (category_filter = [] \/ isin (category r) category_filter = true)
            /\ (location_filter = [] \/ isin (location r) location_filter = true)
            /\ (low_stock_only = true -> quantity r <= reorder_level r))
  /\ Spec.subsequence
       (apply_filters df category_filter location_filter low_stock_only) df
  /\ apply_filters df [] [] false = df.
Proof.
  rewrite apply_filters_is_filter.
  split; [reflexivity |].
  split; [| split; [apply filter_subsequence | reflexivity]].
  intros r; rewrite filter_In.
  unfold Spec.passes, Spec.unrestricted_or_member.
  rewrite !andb_true_iff.
  destruct category_filter as [|c cs], location_filter as [|l ls], low_stock_only;
    cbn [implb]; rewrite ?Z.leb_le;
    intuition (try discriminate; auto).
Qed.

(** ** Adding an item *)

(** C8.  On the empty table, adding "A4 Paper" with quantity 0, reorder
    level 10 and blank category, unit and location saves a table of exactly
    one row: STN-0001, Uncategorized, Nos, Not specified.  In general a name
    that is empty once stripped is refused with the ValidationError message;
    any other submission appends one row that carries the generated id, which
    no row had, the stripped fields with their defaults and the time stamp. *)
Theorem add_new_item_appends (df : DataFrame) (f : ItemForm) (now : pystr) :
  add_new_item [] Sample.a4_form now
    = Saved [ mkRow (Some (lit "STN-0001")) (Some (lit "A4 Paper"))
                (Some (lit "Uncategorized")) (Some (lit "Nos")) 0 10
                (Some (lit "Not specified")) (Some now) (Some []) ]
        (lit "Item added with ID STN-0001.")
  /\ (strip_ws (form_item_name f) = [] ->
        add_new_item df f now = StError ValidationError)
  /\ (strip_ws (form_item_name f) <> [] ->
        exists row,
          add_new_item df f now
            = Saved (df ++ [row])
                (lit "Item added with ID " ++ generate_item_id df ++ lit ".")
          /\ item_id row = Some (generate_item_id df)
          /\ ~ In (item_id row) (map item_id df)
          /\ item_name row = Some (strip_ws (form_item_name f))
          /\ category row =
             Some match strip_ws (form_category f) with
                  | [] => lit "Uncategorized"
                  | _ :: _ => strip_ws (form_category f)
                  end
          /\ unit_ row =
             Some match strip_ws (form_unit f) with
                  | [] => lit "Nos"
                  | _ :: _ => strip_ws (form_unit f)
                  end
          /\ location row =
             Some match strip_ws (form_location f) with
                  | [] => lit "Not specified"
                  | _ :: _ => strip_ws (form_location f)
                  end
          /\ quantity row = form_quantity f
          /\ reorder_level row = form_reorder_level f
          /\ last_updated row = Some now
          /\ remarks row = Some (strip_ws (form_remarks f))).
Proof.
  split; [reflexivity |].
  unfold add_new_item; split; intros H.
  - rewrite H; reflexivity.
  - destruct (strip_ws (form_item_name f)) as [|c s] eqn:E; [congruence |].
    exists (new_row (generate_item_id df) now f).
    split; [reflexivity |].
    split; [reflexivity |].
    split; [apply generate_item_id_fresh |].
    cbn [new_row item_name category unit_ location quantity reorder_level
         last_updated remarks]; rewrite E; unfold or_default.
    repeat split;
      match goal with
      | |- Some (match ?s with [] => _ | _ :: _ => _ end) = _ =>
          destruct s; reflexivity
      end.
Qed.

(** ** Deleting an item *)

(** C9.  The delete button never raises and never reports an error.  The
    table it leaves holds exactly the rows whose item_id does not match the
    selected id, in their original relative order; when the id is the id of
    one row, that row is cut out and the rows before and after it stay; when
    no row has the id, the table is unchanged. *)
Theorem delete_removes_matching (df : DataFrame) (selected_id : cell) :
  (forall e, delete_selected_item df selected_id <> Raised e)
  /\ (forall msg, delete_selected_item df selected_id <> StError msg)
  /\ (forall r,
        In r (table_after (delete_selected_item df selected_id) df)
        <-> In r df /\ id_matches selected_id r = false)
  /\ Spec.subsequence (table_after (delete_selected_item df selected_id) df) df
  /\ (forall before r after,
        df = before ++ r :: after ->
        id_matches selected_id r = true ->
        absent selected_id before -> absent selected_id after ->
        table_after (delete_selected_item df selected_id) df = before ++ after)
  /\ (absent selected_id df ->
        table_after (delete_selected_item df selected_id) df = df).
Proof.
  assert (E : table_after (delete_selected_item df selected_id) df
              = filter (fun r => negb (id_matches selected_id r)) df).
  { unfold delete_selected_item; destruct df; reflexivity. }
  assert (K : forall l, absent selected_id l ->
                filter (fun r => negb (id_matches selected_id r)) l = l).
  { induction l as [|x l IH]; intros A; simpl; [reflexivity |].
    rewrite (A x) by (left; reflexivity); simpl.
    rewrite IH; [reflexivity | intros r Hr; apply A; right; exact Hr]. }
  rewrite E; repeat split.
  - unfold delete_selected_item; destruct (empty df); discriminate.
  - unfold delete_selected_item; destruct (empty df); discriminate.
  - rewrite filter_In, negb_true_iff in H; tauto.
  - rewrite filter_In, negb_true_iff in H; tauto.
  - intros [H1 H2]; rewrite filter_In, negb_true_iff; tauto.
  - apply filter_subsequence.
  - intros before r after -> M A1 A2.
    rewrite filter_app; simpl; rewrite M; simpl.
    rewrite !K by assumption; reflexivity.
  - apply K.
Qed.

(** ** load_data *)

Section LoadDataFacts.

Variable parse_number : pystr -> option number.

(** A value that does not read as a number, or is missing, becomes 0. *)
Lemma coerce_cell_unparseable (v : raw_value) :
  to_numeric_coerce parse_number v = NaN -> coerce_cell parse_number v = Some 0.
Proof. unfold coerce_cell; intros ->; reflexivity. Qed.

Lemma coerce_cell_text_unparseable (s : pystr) :
  parse_number s = None -> coerce_cell parse_number (Text s) = Some 0.
Proof. intros H; apply coerce_cell_unparseable; simpl; rewrite H; reflexivity. Qed.

(** Only an infinity stops the conversion of a cell. *)
Lemma coerce_cell_none (v : raw_value) :
  coerce_cell parse_number v = None <->
  exists negative, to_numeric_coerce parse_number v = Inf negative.
Proof.
  unfold coerce_cell.
  destruct (to_numeric_coerce parse_number v) as [z | q | b |]; simpl; split;
    try discriminate; try (intros [b' H]; discriminate).
  - intros _; exists b; reflexivity.
  - reflexivity.
Qed.

Lemma coerce_column_none (vs : list raw_value) (v : raw_value) :
  In v vs -> coerce_cell parse_number v = None ->
  coerce_column parse_number vs = None.
Proof.
  induction vs as [|x vs IH]; simpl; [tauto |].
  intros [-> | H] E.
  - rewrite E; reflexivity.
  - rewrite (IH H E); destruct (coerce_cell parse_number x); reflexivity.
Qed.

Lemma coerce_column_some (vs : list raw_value) :
  (forall v, In v vs -> coerce_cell parse_number v <> None) ->
  exists zs, coerce_column parse_number vs = Some zs
             /\ List.length zs = List.length vs.
Proof.
  induction vs as [|x vs IH]; simpl; intros H; [exists []; auto |].
  destruct IH as (zs & -> & L); [auto |].
  destruct (coerce_cell parse_number x) as [z|] eqn:E;
    [| exfalso; apply (H x); auto].
  exists (z :: zs); simpl; auto.
Qed.

Lemma typed_rows_length (rs : list RawRow) :
  forall qs ls,
    List.length qs = List.length rs -> List.length ls = List.length rs ->
    List.length (typed_rows rs qs ls) = List.length rs.
Proof.
  induction rs as [|r rs IH]; intros [|q qs] [|l ls]; simpl; try discriminate;
    auto.
Qed.

(** Without an infinity in the two numeric columns every row is loaded. *)
Lemma load_data_all_rows (raw : list RawRow) :
  (forall r, In r raw ->
     coerce_cell parse_number (raw_quantity r) <> None
     /\ coerce_cell parse_number (raw_reorder_level r) <> None) ->
  exists df, load_data parse_number raw = inl df
             /\ List.length df = List.length raw.
Proof.
  intros H; unfold load_data.
  destruct (coerce_column_some (map raw_quantity raw)) as (qs & -> & Lq).
  { intros v Hv; apply in_map_iff in Hv; destruct Hv as (r & <- & Hr).
    apply H; exact Hr. }
  destruct (coerce_column_some (map raw_reorder_level raw)) as (ls & -> & Ll).
  { intros v Hv; apply in_map_iff in Hv; destruct Hv as (r & <- & Hr).
    apply H; exact Hr. }
  rewrite length_map in Lq, Ll.
  eexists; split; [reflexivity | apply typed_rows_length; assumption].
Qed.

(** C7, where the code departs from it.  A table in which some quantity or
    reorder_level reads as an infinity is not loaded: astype(int) raises. *)
Theorem load_data_raises_on_infinity (raw : list RawRow) (r : RawRow)
    (negative : bool) :
  In r raw ->
  to_numeric_coerce parse_number (raw_quantity r) = Inf negative
  \/ to_numeric_coerce parse_number (raw_reorder_level r) = Inf negative ->
  load_data parse_number raw = inr IntCastingNaNError.
Proof.
  intros Hr [H | H]; unfold load_data.
  - rewrite (coerce_column_none (map raw_quantity raw) (raw_quantity r));
      [reflexivity | apply in_map; exact Hr |].
    apply coerce_cell_none; exists negative; exact H.
  - destruct (coerce_column parse_number (map raw_quantity raw)); [| reflexivity].
    rewrite (coerce_column_none (map raw_reorder_level raw) (raw_reorder_level r));
      [reflexivity | apply in_map; exact Hr |].
    apply coerce_cell_none; exists negative; exact H.
Qed.

End LoadDataFacts.

Lemma load_data_raises_on_infinity_witness :
  load_data (fun _ => None) Sample.raw_with_inf = inr IntCastingNaNError.
Proof.
  apply (load_data_raises_on_infinity (fun _ => None) Sample.raw_with_inf
           (nth 1 Sample.raw_with_inf (nth 0 Sample.raw_with_inf
              (mkRawRow None None None None (Num NaN) (Num NaN) None None None)))
           false).
  - right; left; reflexivity.
  - left; reflexivity.
Defined.

(** Malformed and missing numeric fields load as 0. *)
Example load_data_text_and_missing :
  match load_data (fun _ => None) Sample.raw_with_text with
  | inl df => map quantity df = [0; 0] /\ map reorder_level df = [10; 10]
  | inr _ => False
  end.
Proof. simpl; auto. Qed.

(** * Further properties of the pages *)

(** ** Frames that agree on a column *)

Lemma at_set_map {B : Type} (g : Row -> B) (f : Row -> Row) (df : DataFrame) :
  (forall r, g (f r) = g r) ->
  forall idx, map g (at_set idx f df) = map g df.
Proof.
  intros H; induction df as [|x df IH]; intros [|i]; simpl; try reflexivity.
  - rewrite H; reflexivity.
  - rewrite IH; reflexivity.
Qed.

Lemma first_match_same_ids (selected_id : cell) (df df' : DataFrame) :
  map item_id df = map item_id df' ->
  first_match selected_id df = first_match selected_id df'.
Proof.
  revert df'; induction df as [|x df IH]; intros [|y df']; simpl;
    try discriminate; [reflexivity |].
  intros [= Hxy Hrest]; unfold id_matches; rewrite Hxy, (IH df' Hrest).
  reflexivity.
Qed.

Lemma existing_ids_same_ids (df df' : DataFrame) :
  map item_id df = map item_id df' -> existing_ids df = existing_ids df'.
Proof.
  revert df'; induction df as [|x df IH]; intros [|y df']; simpl;
    try discriminate; [reflexivity |].
  intros [= Hxy Hrest]; rewrite Hxy, (IH df' Hrest); reflexivity.
Qed.

Lemma existing_ids_app (df df' : DataFrame) :
  existing_ids (df ++ df') = existing_ids df ++ existing_ids df'.
Proof.
  induction df as [|x df IH]; simpl; [reflexivity |].
  destruct (item_id x); simpl; rewrite IH; reflexivity.
Qed.

Lemma existing_ids_filter_In (p : Row -> bool) (df : DataFrame) (x : pystr) :
  In x (existing_ids (filter p df)) -> In x (existing_ids df).
Proof.
  induction df as [|r df IH]; simpl; [tauto |].
  destruct (p r); simpl; destruct (item_id r); simpl; tauto.
Qed.

Lemma existing_ids_filter_NoDup (p : Row -> bool) (df : DataFrame) :
  NoDup (existing_ids df) -> NoDup (existing_ids (filter p df)).
Proof.
  induction df as [|r df IH]; simpl; [auto |].
  destruct (item_id r) as [x|] eqn:E.
  - intros H; inversion H as [|? ? Hx Hnd]; subst.
    destruct (p r); simpl; [rewrite E; constructor |]; auto.
    intros Hin; apply Hx, (existing_ids_filter_In p); exact Hin.
  - intros H; destruct (p r); simpl; [rewrite E |]; auto.
Qed.

(** ** The update form *)

(** What the update form does once the selected row is found. *)
Lemma update_existing_item_found (df : DataFrame) (selected_id : cell)
    (f : ItemForm) (now : pystr) (idx : nat) :
  first_match selected_id df = Some idx ->
  update_existing_item df selected_id f now =
  match strip_ws (form_item_name f) with
  | [] => StError ValidationError
  | _ :: _ =>
      Saved (at_set idx (updated_row f now) df)
        (lit "Item " ++ cell_str selected_id ++ lit " updated.")
  end.
Proof.
  intros H; unfold update_existing_item.
  destruct df as [|x df]; [discriminate |].
  cbn [empty]; rewrite H; unfold updated_row.
  destruct (strip_ws (form_item_name f)); [reflexivity |].
  cbv zeta; rewrite !at_set_twice; reflexivity.
Qed.

Lemma updated_row_item_id (f : ItemForm) (now : pystr) (r : Row) :
  item_id (updated_row f now r) = item_id r.
Proof. reflexivity. Qed.

Lemma posted_row_item_id (r : Row) (new_qty : Z) (mode : TxnMode) (qty : Z)
    (reason now : pystr) :
  item_id (posted_row r new_qty mode qty reason now) = item_id r.
Proof. reflexivity. Qed.

(** Neither a transaction nor an update touches the item_id column. *)
Lemma page_issue_receive_ids (df : DataFrame) (selected_id : cell)
    (mode : TxnMode) (qty : Z) (reason now : pystr) :
  map item_id
    (table_after (page_issue_receive df selected_id mode qty reason now) df)
  = map item_id df.
Proof.
  destruct (page_issue_receive df selected_id mode qty reason now)
    as [df' msg | | |] eqn:E; try reflexivity.
  destruct (page_issue_receive_saved _ _ _ _ _ _ _ _ E)
    as (idx & r & new_qty & _ & _ & _ & _ & ->).
  apply at_set_map; intros x; reflexivity.
Qed.

Lemma update_existing_item_ids (df : DataFrame) (selected_id : cell)
    (f : ItemForm) (now : pystr) :
  map item_id (table_after (update_existing_item df selected_id f now) df)
  = map item_id df.
Proof.
  destruct (first_match selected_id df) as [idx|] eqn:E.
  - rewrite (update_existing_item_found _ _ _ _ _ E).
    destruct (strip_ws (form_item_name f)); [reflexivity |].
    apply at_set_map; intros x; reflexivity.
  - unfold update_existing_item; rewrite E; destruct (empty df); reflexivity.
Qed.

(** X1.  Distinct ids stay distinct: when no two rows of the table carry
    the same item_id text, the same holds of the table that an add, an
    update, an issue or receive, or a delete leaves in the file. *)
Theorem ids_stay_unique (df : DataFrame) (op : Operation) (now : pystr) :
  NoDup (existing_ids df) ->
  NoDup (existing_ids (table_after (run df op now) df)).
Proof.
  intros H.
  destruct op as [f | selected_id f | selected_id mode qty reason | selected_id];
    cbn [run].
  - unfold add_new_item.
    destruct (strip_ws (form_item_name f)); [exact H |].
    cbn [table_after]; rewrite existing_ids_app.
    cbn [existing_ids new_row item_id].
    apply NoDup_app; repeat split; [exact H | repeat constructor; auto |].
    intros x Hx [<- | []].
    apply existing_ids_In in Hx; exact (generate_item_id_fresh df Hx).
  - rewrite (existing_ids_same_ids _ df); [exact H |].
    apply update_existing_item_ids.
  - rewrite (existing_ids_same_ids _ df); [exact H |].
    apply page_issue_receive_ids.
  - unfold delete_selected_item.
    destruct (empty df); [exact H |].
    cbn [table_after]; apply existing_ids_filter_NoDup; exact H.
Qed.

Lemma ids_stay_unique_witness :
  NoDup
    (existing_ids
       (table_after (run Sample.stock (OpAdd Sample.stapler_form) Sample.now)
          Sample.stock)).
Proof.
  apply (ids_stay_unique Sample.stock (OpAdd Sample.stapler_form) Sample.now).
  repeat constructor; simpl; intuition discriminate.
Defined.

(** ** The numbers of generated ids *)

Lemma generate_item_id_number (df : DataFrame) :
  generate_item_id df = lit "STN-" ++ format_04d (next_num df).
Proof. destruct df; reflexivity. Qed.

Lemma parsed_suffixes_app (ids ids' : list pystr) :
  Spec.parsed_suffixes (ids ++ ids')
  = Spec.parsed_suffixes ids ++ Spec.parsed_suffixes ids'.
Proof.
  induction ids as [|x ids IH]; simpl; [reflexivity |].
  destruct (py_int (id_suffix x)); simpl; rewrite IH; reflexivity.
Qed.

Lemma generated_suffix_parses (df : DataFrame) :
  py_int (id_suffix (generate_item_id df)) = Some (next_num df).
Proof.
  pose proof (next_num_positive df).
  rewrite generate_item_id_number, id_suffix_generated by lia.
  apply py_int_format_04d; lia.
Qed.

Lemma maximum_with_top (l : list Z) (n : Z) :
  (forall v, In v l -> v < n) ->
  match l ++ [n] with
  | [] => 1
  | a :: r => Spec.maximum a r + 1
  end = n + 1.
Proof.
  intros H.
  destruct (l ++ [n]) as [|a r] eqn:E;
    [destruct l; discriminate |].
  f_equal.
  pose proof (maximum_attained r a) as A.
  pose proof (maximum_upper r a n) as U.
  rewrite <- E in A, U.
  assert (Hn : In n (l ++ [n])) by (apply in_or_app; right; left; reflexivity).
  specialize (U Hn).
  apply in_app_or in A; destruct A as [A | [A | []]]; [| lia].
  specialize (H _ A); lia.
Qed.

Lemma next_num_after_add (df : DataFrame) (f : ItemForm) (now : pystr) :
  next_num (df ++ [new_row (generate_item_id df) now f]) = next_num df + 1.
Proof.
  unfold next_num at 1.
  rewrite collect_nums_parsed, existing_ids_app, parsed_suffixes_app.
  cbn [existing_ids new_row item_id Spec.parsed_suffixes].
  rewrite generated_suffix_parses.
  replace (match Spec.parsed_suffixes (existing_ids df) ++ [next_num df] with
           | [] => 1
           | n :: ns => py_max n ns + 1
           end)
    with (match Spec.parsed_suffixes (existing_ids df) ++ [next_num df] with
          | [] => 1
          | n :: ns => Spec.maximum n ns + 1
          end)
    by (destruct (Spec.parsed_suffixes (existing_ids df) ++ [next_num df]);
        [reflexivity | rewrite py_max_maximum; reflexivity]).
  apply maximum_with_top; intros v Hv; apply next_num_above; exact Hv.
Qed.

(** X2.  Ids are handed out in sequence: after an item is added under the
    id numbered n, the id the next add would get is numbered n + 1. *)
Theorem successive_ids_are_consecutive (df : DataFrame) (f : ItemForm)
    (now : pystr) :
  strip_ws (form_item_name f) <> [] ->
  generate_item_id df = lit "STN-" ++ format_04d (next_num df)
  /\ generate_item_id (table_after (add_new_item df f now) df)
     = lit "STN-" ++ format_04d (next_num df + 1).
Proof.
  intros H; split; [apply generate_item_id_number |].
  unfold add_new_item.
  destruct (strip_ws (form_item_name f)); [congruence |].
  cbn [table_after].
  rewrite generate_item_id_number, next_num_after_add; reflexivity.
Qed.

Lemma successive_ids_are_consecutive_witness :
  generate_item_id Sample.stock = lit "STN-0008"
  /\ generate_item_id
       (table_after (add_new_item Sample.stock Sample.stapler_form Sample.now)
          Sample.stock)
     = lit "STN-0009".
Proof.
  apply (successive_ids_are_consecutive Sample.stock Sample.stapler_form
           Sample.now).
  discriminate.
Defined.

(** X3.  A generated id has the form STN- followed by at least four
    decimal digits, and the number read back from it by the generator's own
    parsing is the number it was formatted from. *)
Theorem generated_id_shape (df : DataFrame) :
  exists ds,
    generate_item_id df = lit "STN-" ++ ds
    /\ Forall (fun c => is_digit c = true) ds
    /\ (4 <= List.length ds)%nat
    /\ py_int (id_suffix (generate_item_id df)) = Some (next_num df)
    /\ 1 <= next_num df.
Proof.
  pose proof (next_num_positive df) as P.
  exists (format_04d (next_num df)).
  split; [apply generate_item_id_number |].
  split; [apply format_04d_all_digits; lia |].
  split; [| split; [apply generated_suffix_parses | exact P]].
  unfold format_04d; cbv zeta.
  destruct (Z.ltb_spec (next_num df) 0); [lia |].
  rewrite length_app, repeat_length; lia.
Qed.

(** ** Adding, then looking up *)

Lemma first_match_app_absent (selected_id : cell) (df rest : DataFrame) (r : Row) :
  absent selected_id df ->
  id_matches selected_id r = true ->
  first_match selected_id (df ++ r :: rest) = Some (List.length df).
Proof.
  intros A M; induction df as [|x df IH]; simpl.
  - rewrite M; reflexivity.
  - rewrite (A x) by (left; reflexivity).
    rewrite IH; [reflexivity |].
    intros y Hy; apply A; right; exact Hy.
Qed.

Lemma generated_id_absent (df : DataFrame) :
  absent (Some (generate_item_id df)) df.
Proof.
  intros r Hr; unfold id_matches.
  destruct (item_id r) as [x|] eqn:E; [| reflexivity].
  destruct (str_eqb x (generate_item_id df)) eqn:Q; [| reflexivity].
  apply str_eqb_eq in Q; subst x.
  exfalso; apply (generate_item_id_fresh df).
  rewrite <- E; apply in_map; exact Hr.
Qed.

Lemma nth_error_snoc (df : DataFrame) (r : Row) :
  nth_error (df ++ [r]) (List.length df) = Some r.
Proof. rewrite nth_error_app2, Nat.sub_diag by lia; reflexivity. Qed.

(** X4.  An item that has just been added is the last row of the saved
    table, the rows before it are the old table, and looking its generated
    id up finds exactly that last row. *)
Theorem added_item_is_found (df : DataFrame) (f : ItemForm) (now : pystr) :
  strip_ws (form_item_name f) <> [] ->
  table_after (add_new_item df f now) df
    = df ++ [new_row (generate_item_id df) now f]
  /\ first_match (Some (generate_item_id df))
       (table_after (add_new_item df f now) df) = Some (List.length df)
  /\ nth_error (table_after (add_new_item df f now) df) (List.length df)
     = Some (new_row (generate_item_id df) now f).
Proof.
  intros H.
  assert (E : table_after (add_new_item df f now) df
              = df ++ [new_row (generate_item_id df) now f]).
  { unfold add_new_item.
    destruct (strip_ws (form_item_name f)); [congruence | reflexivity]. }
  rewrite E; split; [reflexivity |].
  split; [| apply nth_error_snoc].
  apply first_match_app_absent; [apply generated_id_absent |].
  unfold id_matches; cbn [new_row item_id]; apply str_eqb_refl.
Qed.

Lemma added_item_is_found_witness :
  table_after (add_new_item Sample.stock Sample.stapler_form Sample.now)
    Sample.stock
    = Sample.stock
        ++ [new_row (generate_item_id Sample.stock) Sample.now Sample.stapler_form]
  /\ first_match (Some (generate_item_id Sample.stock))
       (table_after (add_new_item Sample.stock Sample.stapler_form Sample.now)
          Sample.stock) = Some 3%nat
  /\ nth_error
       (table_after (add_new_item Sample.stock Sample.stapler_form Sample.now)
          Sample.stock) 3
     = Some (new_row (generate_item_id Sample.stock) Sample.now Sample.stapler_form).
Proof.
  apply (added_item_is_found Sample.stock Sample.stapler_form Sample.now).
  discriminate.
Defined.

(** ** Transactions: what changes and what does not *)

Lemma at_set_map_at {B : Type} (g : Row -> B) (f : Row -> Row) (df : DataFrame) :
  forall idx r, nth_error df idx = Some r -> g (f r) = g r ->
    map g (at_set idx f df) = map g df.
Proof.
  induction df as [|x df IH]; intros [|i] r; simpl; try discriminate.
  - intros [= ->] H; rewrite H; reflexivity.
  - intros Hr H; rewrite (IH i r Hr H); reflexivity.
Qed.

(** *** The int64 column *)

Lemma fits_int64_spec (z : Z) :
  fits_int64 z = true <-> int64_min <= z <= int64_max.
Proof. unfold fits_int64; rewrite andb_true_iff, !Z.leb_le; tauto. Qed.

Lemma int64_frame_quantities (df : DataFrame) :
  int64_frame df -> forallb (fun r => fits_int64 (quantity r)) df = true.
Proof.
  intros H; apply forallb_forall; intros r Hr.
  unfold int64_frame in H; rewrite Forall_forall in H; apply (H r Hr).
Qed.

Lemma forallb_at_set (p : Row -> bool) (f : Row -> Row) (df : DataFrame) :
  forall idx r,
    nth_error df idx = Some r -> forallb p df = true ->
    forallb p (at_set idx f df) = p (f r).
Proof.
  induction df as [|x df IH]; intros [|i] r; simpl; try discriminate.
  - intros [= ->] H; apply andb_true_iff in H; destruct H as [_ ->].
    apply andb_true_r.
  - intros Hr H; apply andb_true_iff in H; destruct H as [-> H].
    apply (IH i r Hr H).
Qed.

(** On an int64 frame the page runs as on Python integers unless the
    quantity it writes does not fit. *)
Lemma page_issue_receive_int64_found (df : DataFrame) (selected_id : cell)
    (mode : TxnMode) (qty : Z) (reason now : pystr) (idx : nat) (r : Row) :
  int64_frame df ->
  first_match selected_id df = Some idx ->
  nth_error df idx = Some r ->
  page_issue_receive_int64 df selected_id mode qty reason now =
  match page_issue_receive df selected_id mode qty reason now with
  | Saved df' msg =>
      if fits_int64 match mode with
                    | Issue => quantity r - qty
                    | Receive => quantity r + qty
                    end
      then Saved df' msg
      else Raised AssertionError
  | o => o
  end.
Proof.
  intros F Hidx Hr; unfold page_issue_receive_int64.
  rewrite (page_issue_receive_found _ _ _ _ _ _ _ _ Hidx Hr).
  pose proof (int64_frame_quantities df F) as Q.
  destruct mode; [destruct (qty >? quantity r); [reflexivity |] |];
    rewrite (forallb_at_set _ _ _ _ _ Hr Q); reflexivity.
Qed.

(** When the int64 page saves, the page on Python integers saved the same
    table. *)
Lemma page_issue_receive_int64_saved (df : DataFrame) (selected_id : cell)
    (mode : TxnMode) (qty : Z) (reason now : pystr) (df' : DataFrame) (msg : pystr) :
  page_issue_receive_int64 df selected_id mode qty reason now = Saved df' msg ->
  page_issue_receive df selected_id mode qty reason now = Saved df' msg.
Proof.
  unfold page_issue_receive_int64.
  destruct (page_issue_receive df selected_id mode qty reason now)
    as [d m | | |]; try discriminate.
  destruct (forallb (fun r => fits_int64 (quantity r)) d); [auto | discriminate].
Qed.

(** X5.  A receive checks no stock: on an int64 frame, for a row that is
    found, it is saved whenever the new quantity fits the column, the row's
    quantity grows by exactly qty and no other row changes; when the new
    quantity does not fit, the assignment raises AssertionError and the
    table in the file stays as it was. *)
Theorem receive_posts_within_int64 (df : DataFrame) (selected_id : cell) (qty : Z)
    (reason now : pystr) (idx : nat) (r : Row) :
  int64_frame df ->
  first_match selected_id df = Some idx ->
  nth_error df idx = Some r ->
  (fits_int64 (quantity r + qty) = true ->
     exists df' msg r',
       page_issue_receive_int64 df selected_id Receive qty reason now
         = Saved df' msg
       /\ nth_error df' idx = Some r'
       /\ quantity r' = quantity r + qty
       /\ (forall j, j <> idx -> nth_error df' j = nth_error df j)
       /\ List.length df' = List.length df)
  /\ (fits_int64 (quantity r + qty) = false ->
        page_issue_receive_int64 df selected_id Receive qty reason now
          = Raised AssertionError
        /\ table_after
             (page_issue_receive_int64 df selected_id Receive qty reason now) df
           = df).
Proof.
  intros F Hidx Hr.
  rewrite (page_issue_receive_int64_found _ _ _ _ _ _ _ _ F Hidx Hr).
  rewrite (page_issue_receive_found _ _ _ _ _ _ _ _ Hidx Hr).
  split; intros ->.
  - destruct (at_set_nth
                (fun x => posted_row x (quantity r + qty) Receive qty reason now)
                _ _ _ Hr) as (N1 & N2 & N3).
    do 3 eexists; split; [reflexivity |].
    split; [exact N1 |]; repeat split; assumption.
  - split; reflexivity.
Qed.

Lemma receive_posts_within_int64_witness :
  page_issue_receive_int64 [Sample.pens; Sample.full] (Some (lit "STN-0003"))
    Receive 1 (lit "PO 80") Sample.now
    = Raised AssertionError
  /\ table_after
       (page_issue_receive_int64 [Sample.pens; Sample.full]
          (Some (lit "STN-0003")) Receive 1 (lit "PO 80") Sample.now)
       [Sample.pens; Sample.full]
     = [Sample.pens; Sample.full].
Proof.
  refine (proj2 (receive_posts_within_int64 [Sample.pens; Sample.full]
                   (Some (lit "STN-0003")) 1 (lit "PO 80") Sample.now 1%nat
                   Sample.full _ eq_refl eq_refl) eq_refl).
  repeat constructor.
Defined.

(** X6.  A saved transaction writes three cells of one row and nothing
    else: in the first row that carries the selected id the quantity, the
    time stamp and the remarks are new; its id, name, category, unit, reorder
    level and location are as before, every other row is as before, and the
    table has as many rows as before. *)
Theorem transaction_writes_one_row (df : DataFrame) (selected_id : cell)
    (mode : TxnMode) (qty : Z) (reason now : pystr) (df' : DataFrame) (msg : pystr) :
  page_issue_receive df selected_id mode qty reason now = Saved df' msg ->
  exists idx r r',
    first_match selected_id df = Some idx
    /\ nth_error df idx = Some r
    /\ nth_error df' idx = Some r'
    /\ item_id r' = item_id r /\ item_name r' = item_name r
    /\ category r' = category r /\ unit_ r' = unit_ r
    /\ reorder_level r' = reorder_level r /\ location r' = location r
    /\ last_updated r' = Some now
    /\ quantity r' = match mode with
                     | Issue => quantity r - qty
                     | Receive => quantity r + qty
                     end
    /\ (forall j, j <> idx -> nth_error df' j = nth_error df j)
    /\ List.length df' = List.length df.
Proof.
  intros H.
  destruct (page_issue_receive_saved _ _ _ _ _ _ _ _ H)
    as (idx & r & new_qty & Hidx & Hr & -> & _ & ->).
  destruct (at_set_nth
              (fun x => posted_row x
                          match mode with
                          | Issue => quantity r - qty
                          | Receive => quantity r + qty
                          end mode qty reason now) _ _ _ Hr) as (N1 & N2 & N3).
  exists idx, r; eexists; split; [exact Hidx |].
  split; [exact Hr |]. split; [exact N1 |].
  repeat split; assumption.
Qed.

Lemma transaction_writes_one_row_witness :
  exists idx r r',
    first_match (Some (lit "STN-0002")) Sample.stock = Some idx
    /\ nth_error Sample.stock idx = Some r
    /\ nth_error
         (table_after
            (page_issue_receive Sample.stock (Some (lit "STN-0002")) Issue 4
               (lit "office") Sample.now) Sample.stock) idx = Some r'
    /\ item_id r' = item_id r /\ item_name r' = item_name r
    /\ category r' = category r /\ unit_ r' = unit_ r
    /\ reorder_level r' = reorder_level r /\ location r' = location r
    /\ last_updated r' = Some Sample.now
    /\ quantity r' = quantity r - 4
    /\ (forall j, j <> idx ->
          nth_error
            (table_after
               (page_issue_receive Sample.stock (Some (lit "STN-0002")) Issue 4
                  (lit "office") Sample.now) Sample.stock) j
          = nth_error Sample.stock j)
    /\ List.length
         (table_after
            (page_issue_receive Sample.stock (Some (lit "STN-0002")) Issue 4
               (lit "office") Sample.now) Sample.stock)
       = List.length Sample.stock.
Proof.
  exact (transaction_writes_one_row Sample.stock (Some (lit "STN-0002")) Issue 4
           (lit "office") Sample.now _ _ eq_refl).
Defined.

(** X7.  An issue followed by a receive of the same quantity on the same
    item brings every quantity of the table back to what it was; both
    transactions are saved and the row carries the time stamp of the
    second. *)
Theorem issue_then_receive_restores (df : DataFrame) (selected_id : cell)
    (qty : Z) (reason1 now1 reason2 now2 : pystr) (idx : nat) (r : Row) :
  first_match selected_id df = Some idx ->
  nth_error df idx = Some r ->
  qty <= quantity r ->
  exists df1 msg1 df2 msg2 r2,
    page_issue_receive df selected_id Issue qty reason1 now1 = Saved df1 msg1
    /\ page_issue_receive df1 selected_id Receive qty reason2 now2 = Saved df2 msg2
    /\ map quantity df2 = map quantity df
    /\ map item_id df2 = map item_id df
    /\ nth_error df2 idx = Some r2
    /\ last_updated r2 = Some now2.
Proof.
  intros Hidx Hr Hq.
  rewrite (page_issue_receive_found _ _ _ _ _ _ _ _ Hidx Hr).
  destruct (Z.gtb_spec qty (quantity r)); [lia |].
  set (p1 := fun x => posted_row x (quantity r - qty) Issue qty reason1 now1).
  destruct (at_set_nth p1 _ _ _ Hr) as (N1 & _ & _).
  assert (I1 : map item_id (at_set idx p1 df) = map item_id df)
    by (apply at_set_map; intros x; reflexivity).
  assert (Hidx1 : first_match selected_id (at_set idx p1 df) = Some idx)
    by (rewrite (first_match_same_ids _ _ df I1); exact Hidx).
  exists (at_set idx p1 df); eexists.
  rewrite (page_issue_receive_found _ _ _ _ _ _ _ _ Hidx1 N1).
  set (p2 := fun x => posted_row x (quantity (p1 r) + qty) Receive qty reason2 now2).
  destruct (at_set_nth p2 _ _ _ N1) as (N2 & _ & _).
  exists (at_set idx p2 (at_set idx p1 df)); do 2 eexists.
  split; [reflexivity |]. split; [reflexivity |].
  split; [| split; [| split; [exact N2 | reflexivity]]].
  - rewrite at_set_twice.
    apply (at_set_map_at quantity _ df idx r Hr).
    unfold p2, p1, posted_row; cbn [quantity set_remarks set_last_updated set_quantity].
    lia.
  - rewrite <- I1; apply at_set_map; intros x; reflexivity.
Qed.

Lemma issue_then_receive_restores_witness :
  exists df1 msg1 df2 msg2 r2,
    page_issue_receive Sample.stock (Some (lit "STN-0002")) Issue 15
      (lit "office") Sample.now = Saved df1 msg1
    /\ page_issue_receive df1 (Some (lit "STN-0002")) Receive 15
         (lit "returned") (lit "2024-03-02 10:00:00") = Saved df2 msg2
    /\ map quantity df2 = map quantity Sample.stock
    /\ map item_id df2 = map item_id Sample.stock
    /\ nth_error df2 1 = Some r2
    /\ last_updated r2 = Some (lit "2024-03-02 10:00:00").
Proof.
  apply (issue_then_receive_restores Sample.stock (Some (lit "STN-0002")) 15
           (lit "office") Sample.now (lit "returned") (lit "2024-03-02 10:00:00")
           1%nat Sample.paper eq_refl eq_refl).
  simpl; lia.
Defined.

(** X8.  The audit trail only grows: when the prior remarks begin with a
    character other than a blank or a bar, a saved transaction leaves the
    prior remarks unchanged in front, then " | ", then the new line. *)
Theorem remarks_history_is_kept (df : DataFrame) (selected_id : cell)
    (mode : TxnMode) (qty : Z) (reason now : pystr) (df' : DataFrame) (msg : pystr)
    (idx : nat) (r : Row) (c : ascii) (rest : pystr) :
  page_issue_receive df selected_id mode qty reason now = Saved df' msg ->
  first_match selected_id df = Some idx ->
  nth_error df idx = Some r ->
  remarks r = Some (c :: rest) ->
  is_sep c = false ->
  exists r',
    nth_error df' idx = Some r'
    /\ remarks r'
       = Some ((c :: rest) ++ lit " | " ++ audit_line now mode qty reason).
Proof.
  intros H Hidx Hr Hrem Hc.
  destruct (page_issue_receive_saved _ _ _ _ _ _ _ _ H)
    as (idx' & r0 & new_qty & Hidx' & Hr0 & _ & _ & ->).
  assert (idx' = idx) as -> by congruence.
  assert (r0 = r) as -> by congruence.
  destruct (at_set_nth (fun x => posted_row x new_qty mode qty reason now) _ _ _ Hr)
    as (N & _ & _).
  eexists; split; [exact N |].
  unfold posted_row; cbn [remarks set_remarks]; rewrite Hrem; f_equal.
  destruct (audit_line_shape now mode qty reason) as [body ->].
  unfold strip, lstrip.
  rewrite dropwhile_keep by exact Hc.
  change ((c :: rest) ++ lit " | " ++ "["%char :: body ++ [")"%char])
    with ((c :: rest) ++ (lit " | " ++ "["%char :: body) ++ [")"%char]).
  rewrite app_assoc; apply rstrip_snoc; reflexivity.
Qed.

Lemma remarks_history_is_kept_witness :
  exists r',
    nth_error
      (table_after
         (page_issue_receive Sample.stock (Some (lit "STN-0002")) Issue 4
            (lit "office") Sample.now) Sample.stock) 1 = Some r'
    /\ remarks r'
       = Some (lit "opening stock" ++ lit " | "
                 ++ audit_line Sample.now Issue 4 (lit "office")).
Proof.
  exact (remarks_history_is_kept Sample.stock (Some (lit "STN-0002")) Issue 4
           (lit "office") Sample.now _ _ 1%nat Sample.paper _ _
           eq_refl eq_refl eq_refl eq_refl eq_refl).
Defined.

(** ** The update form *)

(** X9.  For a row that is found, the update form refuses a name that is
    blank once stripped and saves nothing; otherwise it rewrites the first
    row that carries the selected id, and only that row: the id stays, the
    name is the stripped name, blank category, unit and location take their
    defaults, quantity and reorder level are the submitted ones and the time
    stamp is the present one. *)
Theorem update_rewrites_one_row (df : DataFrame) (selected_id : cell)
    (f : ItemForm) (now : pystr) (idx : nat) (r : Row) :
  first_match selected_id df = Some idx ->
  nth_error df idx = Some r ->
  (strip_ws (form_item_name f) = [] ->
     update_existing_item df selected_id f now = StError ValidationError
     /\ table_after (update_existing_item df selected_id f now) df = df)
  /\ (strip_ws (form_item_name f) <> [] ->
        exists df' msg r',
          update_existing_item df selected_id f now = Saved df' msg
          /\ nth_error df' idx = Some r'
          /\ item_id r' = item_id r
          /\ item_name r' = Some (strip_ws (form_item_name f))
          /\ category r' =
             Some match strip_ws (form_category f) with
                  | [] => lit "Uncategorized"
                  | _ :: _ => strip_ws (form_category f)
                  end
          /\ unit_ r' =
             Some match strip_ws (form_unit f) with
                  | [] => lit "Nos"
                  | _ :: _ => strip_ws (form_unit f)
                  end
          /\ location r' =
             Some match strip_ws (form_location f) with
                  | [] => lit "Not specified"
                  | _ :: _ => strip_ws (form_location f)
                  end
          /\ quantity r' = form_quantity f
          /\ reorder_level r' = form_reorder_level f
          /\ remarks r' = Some (strip_ws (form_remarks f))
          /\ last_updated r' = Some now
          /\ (forall j, j <> idx -> nth_error df' j = nth_error df j)
          /\ List.length df' = List.length df).
Proof.
  intros Hidx Hr.
  rewrite (update_existing_item_found _ _ _ _ _ Hidx).
  split; intros H.
  - rewrite H; split; reflexivity.
  - destruct (at_set_nth (updated_row f now) _ _ _ Hr) as (N1 & N2 & N3).
    exists (at_set idx (updated_row f now) df).
    destruct (strip_ws (form_item_name f)) as [|c s] eqn:E; [congruence |].
    do 2 eexists; split; [reflexivity |].
    split; [exact N1 |].
    repeat split; try assumption.
    all: unfold updated_row;
      cbn [item_name set_item_name set_category set_unit set_location
           set_quantity set_reorder_level set_remarks set_last_updated];
      rewrite E; reflexivity.
Qed.

Lemma update_rewrites_one_row_witness :
  exists df' msg r',
    update_existing_item Sample.stock (Some (lit "STN-0007"))
      Sample.stapler_form Sample.now = Saved df' msg
    /\ nth_error df' 2 = Some r'
    /\ item_id r' = Some (lit "STN-0007")
    /\ item_name r' = Some (lit "Stapler")
    /\ location r' = Some (lit "Not specified")
    /\ quantity r' = 12
    /\ nth_error df' 0 = Some Sample.pens
    /\ nth_error df' 1 = Some Sample.paper.
Proof.
  destruct (proj2 (update_rewrites_one_row Sample.stock (Some (lit "STN-0007"))
                     Sample.stapler_form Sample.now 2%nat Sample.files
                     eq_refl eq_refl))
    as (df' & msg & r' & E & N & I & Nm & _ & _ & L & Q & _ & _ & _ & O & _).
  - discriminate.
  - exists df', msg, r'.
    repeat split; try assumption.
    + exact (O 0%nat ltac:(discriminate)).
    + exact (O 1%nat ltac:(discriminate)).
Defined.

(** ** After a delete *)

Lemma filter_idempotent {A : Type} (p : A -> bool) (l : list A) :
  filter p (filter p l) = filter p l.
Proof.
  induction l as [|x l IH]; simpl; [reflexivity |].
  destruct (p x) eqn:E; simpl; [rewrite E, IH |]; auto.
Qed.

Lemma delete_selected_item_table (df : DataFrame) (selected_id : cell) :
  table_after (delete_selected_item df selected_id) df
  = filter (fun r => negb (id_matches selected_id r)) df.
Proof. unfold delete_selected_item; destruct df; reflexivity. Qed.

(** X10.  Once an id has been deleted no row carries it: deleting it again
    changes nothing, and a transaction or an update for it finds no row (the
    lookup raises IndexError, or the page shows its notice when the table
    has become empty). *)
Theorem deleted_id_is_gone (df : DataFrame) (selected_id : cell) :
  absent selected_id (table_after (delete_selected_item df selected_id) df)
  /\ table_after
       (delete_selected_item
          (table_after (delete_selected_item df selected_id) df) selected_id)
       (table_after (delete_selected_item df selected_id) df)
     = table_after (delete_selected_item df selected_id) df
  /\ first_match selected_id
       (table_after (delete_selected_item df selected_id) df) = None
  /\ (forall mode qty reason now,
        page_issue_receive
          (table_after (delete_selected_item df selected_id) df)
          selected_id mode qty reason now
        = if empty (table_after (delete_selected_item df selected_id) df)
          then StInfo (lit "No items in inventory. Add items first.")
          else Raised IndexError)
  /\ (forall f now,
        update_existing_item
          (table_after (delete_selected_item df selected_id) df)
          selected_id f now
        = if empty (table_after (delete_selected_item df selected_id) df)
          then StInfo (lit "No items to update. Add items first.")
          else Raised IndexError).
Proof.
  assert (A : absent selected_id
                (table_after (delete_selected_item df selected_id) df)).
  { rewrite delete_selected_item_table; intros r Hr.
    apply filter_In in Hr; destruct Hr as [_ Hr].
    apply negb_true_iff; exact Hr. }
  pose proof (proj2 (first_match_none _ _) A) as N.
  split; [exact A |].
  split; [rewrite !delete_selected_item_table; apply filter_idempotent |].
  split; [exact N |].
  split; intros; unfold page_issue_receive, update_existing_item;
    rewrite N; reflexivity.
Qed.

(** ** The dashboard *)

Lemma wrap_int64_fits (z : Z) : fits_int64 z = true -> wrap_int64 z = z.
Proof.
  rewrite fits_int64_spec; unfold wrap_int64, int64_min, int64_max; intros H.
  rewrite Z.mod_small; lia.
Qed.

Lemma wrap_int64_in_range (z : Z) : fits_int64 (wrap_int64 z) = true.
Proof.
  rewrite fits_int64_spec; unfold wrap_int64, int64_min, int64_max.
  pose proof (Z.mod_pos_bound (z - - 2 ^ 63) (2 ^ 64) ltac:(lia)); lia.
Qed.

Lemma wrap_int64_add_l (a b : Z) :
  wrap_int64 (wrap_int64 a + b) = wrap_int64 (a + b).
Proof.
  unfold wrap_int64; f_equal.
  replace ((a - int64_min) mod 2 ^ 64 + int64_min + b - int64_min)
    with ((a - int64_min) mod 2 ^ 64 + b) by lia.
  replace (a + b - int64_min) with ((a - int64_min) + b) by lia.
  apply Zplus_mod_idemp_l.
Qed.

Lemma column_sum_from (xs : list Z) :
  forall a,
    fold_left (fun acc x => wrap_int64 (acc + x)) xs (wrap_int64 a)
    = wrap_int64 (a + fold_right Z.add 0 xs).
Proof.
  induction xs as [|x xs IH]; intros a; simpl.
  - rewrite Z.add_0_r; reflexivity.
  - rewrite wrap_int64_add_l, IH; f_equal; lia.
Qed.

(** The int64 sum is the exact sum, wrapped. *)
Lemma column_sum_wraps (xs : list Z) :
  column_sum xs = wrap_int64 (fold_right Z.add 0 xs).
Proof.
  unfold column_sum.
  change 0 with (wrap_int64 0) at 1.
  rewrite column_sum_from; reflexivity.
Qed.

Lemma total_qty_wraps (df : DataFrame) :
  total_qty (dashboard_metrics df)
  = wrap_int64 (fold_right Z.add 0 (map quantity df)).
Proof.
  cbn [dashboard_metrics total_qty].
  destruct df as [|r df]; [reflexivity | apply column_sum_wraps].
Qed.

Lemma count_true_from (bs : list bool) :
  forall a,
    fold_left (fun acc (b : bool) => if b then acc + 1 else acc) bs a
    = a + count_true bs.
Proof.
  unfold count_true; induction bs as [|b bs IH]; intros a; simpl; [lia |].
  destruct b; [rewrite (IH (a + 1)), (IH 1); lia | apply IH].
Qed.

Lemma count_true_cons (b : bool) (bs : list bool) :
  count_true (b :: bs) = (if b then 1 else 0) + count_true bs.
Proof.
  unfold count_true at 1; simpl; rewrite count_true_from; destruct b; lia.
Qed.

Lemma count_true_filter (p : Row -> bool) (df : DataFrame) :
  count_true (map p df) = Z.of_nat (List.length (filter p df)).
Proof.
  induction df as [|r df IH]; [reflexivity |].
  cbn [map filter]; rewrite count_true_cons, IH.
  destruct (p r); cbn [List.length]; lia.
Qed.

Lemma filter_length_le {A : Type} (p : A -> bool) (l : list A) :
  (List.length (filter p l) <= List.length l)%nat.
Proof.
  induction l as [|x l IH]; simpl; [lia |].
  destruct (p x); simpl; lia.
Qed.

Lemma exact_sum_nonneg (xs : list Z) :
  Forall (fun x => 0 <= x) xs -> 0 <= fold_right Z.add 0 xs.
Proof. induction 1 as [|x xs Hx _ IH]; simpl; lia. Qed.

(** X11.  The low-stock metric of the dashboard counts the rows that the
    low-stock filter lists, so it lies between 0 and the number of items; on
    the empty table all three metrics are 0.  The total quantity is an int64
    sum: it is the exact sum of the quantities wrapped around into int64,
    and it is the exact sum, hence not negative, when no quantity is negative
    and the exact sum fits. *)
Theorem dashboard_metrics_agree (df : DataFrame) :
  low_stock_count (dashboard_metrics df)
    = Z.of_nat (List.length (apply_filters df [] [] true))
  /\ 0 <= low_stock_count (dashboard_metrics df)
       <= Z.of_nat (total_items (dashboard_metrics df))
  /\ dashboard_metrics [] = mkMetrics 0 0 0
  /\ total_qty (dashboard_metrics df)
     = wrap_int64 (fold_right Z.add 0 (map quantity df))
  /\ fits_int64 (total_qty (dashboard_metrics df)) = true
  /\ (quantities_nonneg df ->
      fold_right Z.add 0 (map quantity df) <= int64_max ->
      total_qty (dashboard_metrics df) = fold_right Z.add 0 (map quantity df)
      /\ 0 <= total_qty (dashboard_metrics df)).
Proof.
  assert (E : low_stock_count (dashboard_metrics df)
              = Z.of_nat (List.length (filter low_stock df))).
  { unfold dashboard_metrics; cbn [low_stock_count].
    destruct df as [|r df]; [reflexivity |].
    cbn [empty]; apply (count_true_filter low_stock). }
  split; [rewrite E; reflexivity |].
  split; [| split; [reflexivity |]].
  - rewrite E; cbn [dashboard_metrics total_items].
    pose proof (filter_length_le low_stock df); lia.
  - rewrite total_qty_wraps.
    split; [reflexivity |].
    split; [apply wrap_int64_in_range |].
    intros H Hmax.
    assert (N : 0 <= fold_right Z.add 0 (map quantity df)).
    { apply exact_sum_nonneg; unfold quantities_nonneg in H.
      rewrite Forall_map; exact H. }
    rewrite wrap_int64_fits; [split; [reflexivity | exact N] |].
    apply fits_int64_spec; unfold int64_min; lia.
Qed.

(** A total past the top of int64 comes out negative. *)
Example total_qty_wraps_around :
  total_qty (dashboard_metrics [Sample.full; set_quantity 1 Sample.pens])
  = - 9223372036854775808.
Proof. reflexivity. Qed.

Lemma exact_sum_at_set (f : Row -> Row) (df : DataFrame) :
  forall idx r, nth_error df idx = Some r ->
    fold_right Z.add 0 (map quantity (at_set idx f df))
    = fold_right Z.add 0 (map quantity df) - quantity r + quantity (f r).
Proof.
  induction df as [|x df IH]; intros [|i] r; simpl; try discriminate.
  - intros [= ->]; lia.
  - intros H; rewrite (IH i r H); lia.
Qed.

(** X12.  A transaction that is saved moves the dashboard's total quantity
    by exactly the quantity posted, down for an issue and up for a receive,
    in int64 arithmetic (the new total is the old total minus or plus qty,
    wrapped around), and leaves the number of items as it was. *)
Theorem transaction_moves_total (df : DataFrame) (selected_id : cell)
    (mode : TxnMode) (qty : Z) (reason now : pystr) (df' : DataFrame) (msg : pystr) :
  page_issue_receive_int64 df selected_id mode qty reason now = Saved df' msg ->
  total_qty (dashboard_metrics df')
    = wrap_int64 match mode with
                 | Issue => total_qty (dashboard_metrics df) - qty
                 | Receive => total_qty (dashboard_metrics df) + qty
                 end
  /\ total_items (dashboard_metrics df') = total_items (dashboard_metrics df).
Proof.
  intros H; apply page_issue_receive_int64_saved in H.
  destruct (page_issue_receive_saved _ _ _ _ _ _ _ _ H)
    as (idx & r & new_qty & _ & Hr & -> & _ & ->).
  destruct (at_set_nth
              (fun x => posted_row x
                          match mode with
                          | Issue => quantity r - qty
                          | Receive => quantity r + qty
                          end mode qty reason now) _ _ _ Hr) as (_ & _ & L).
  split; [| exact L].
  rewrite !total_qty_wraps, (exact_sum_at_set _ _ _ _ Hr).
  unfold posted_row; cbn [quantity set_remarks set_last_updated set_quantity].
  destruct mode.
  - replace (wrap_int64 (fold_right Z.add 0 (map quantity df)) - qty)
      with (wrap_int64 (fold_right Z.add 0 (map quantity df)) + - qty) by lia.
    rewrite wrap_int64_add_l; f_equal; lia.
  - rewrite wrap_int64_add_l; f_equal; lia.
Qed.

Lemma transaction_moves_total_witness :
  total_qty
    (dashboard_metrics
       (table_after
          (page_issue_receive_int64 [Sample.full; Sample.files]
             (Some (lit "STN-0007")) Receive 1 (lit "PO 81") Sample.now)
          [Sample.full; Sample.files]))
    = wrap_int64 (total_qty (dashboard_metrics [Sample.full; Sample.files]) + 1)
  /\ total_items
       (dashboard_metrics
          (table_after
             (page_issue_receive_int64 [Sample.full; Sample.files]
                (Some (lit "STN-0007")) Receive 1 (lit "PO 81") Sample.now)
             [Sample.full; Sample.files]))
     = total_items (dashboard_metrics [Sample.full; Sample.files]).
Proof.
  exact (transaction_moves_total [Sample.full; Sample.files]
           (Some (lit "STN-0007")) Receive 1 (lit "PO 81") Sample.now _ _ eq_refl).
Defined.

(** A receive next to a row at the top of int64: the total wraps. *)
Example receive_wraps_total :
  total_qty
    (dashboard_metrics
       (table_after
          (page_issue_receive_int64 [Sample.full; Sample.files]
             (Some (lit "STN-0007")) Receive 1 (lit "PO 81") Sample.now)
          [Sample.full; Sample.files]))
  = - 9223372036854775808.
Proof. reflexivity. Qed.

(** ** Filters compose *)

(** X13.  Filtering is idempotent, and filtering in two passes, first by
    category and then by location and low stock, lists the same rows as one
    pass with all three arguments. *)
Theorem apply_filters_compose (df : DataFrame)
    (category_filter location_filter : list pystr) (low_stock_only : bool) :
  apply_filters
    (apply_filters df category_filter location_filter low_stock_only)
    category_filter location_filter low_stock_only
  = apply_filters df category_filter location_filter low_stock_only
  /\ apply_filters (apply_filters df category_filter [] false)
       [] location_filter low_stock_only
     = apply_filters df category_filter location_filter low_stock_only
  /\ (List.length (apply_filters df category_filter location_filter low_stock_only)
      <= List.length df)%nat.
Proof.
  rewrite !apply_filters_is_filter.
  split; [apply filter_idempotent |].
  split; [| apply filter_length_le].
  rewrite filter_filter; apply filter_ext; intros r.
  unfold Spec.passes, Spec.unrestricted_or_member; cbn [implb].
  rewrite !andb_true_r, !andb_true_l, andb_assoc; reflexivity.
Qed.

(** ** item_map and the select boxes *)

(** X14.  With every item_id present, whatever label is picked in the
    select box stands for the id of a row of the table, and that row is
    found: the lookups of the pages never raise.  The only exception the
    transaction page can then end in is the AssertionError of a quantity
    that does not fit the int64 column, which on an int64 frame no issue of
    at least 1 can cause; the update form raises nothing. *)
Theorem selected_label_is_served (df : DataFrame) (selected : pystr) :
  ids_present df ->
  In selected (options df) ->
  exists x idx,
    dict_get selected (item_map df) = Some (Some x)
    /\ In (Some x) (map item_id df)
    /\ first_match (Some x) df = Some idx
    /\ (forall mode qty reason now e,
          page_issue_receive_for df selected mode qty reason now = Raised e ->
          e = AssertionError)
    /\ (forall qty reason now e,
          int64_frame df -> 1 <= qty ->
          page_issue_receive_for df selected Issue qty reason now <> Raised e)
    /\ (forall f now e,
          fits_int64 (form_quantity f) = true ->
          fits_int64 (form_reorder_level f) = true ->
          update_existing_item df (Some x) f now <> Raised e).
Proof.
  intros P Hsel.
  destruct (dict_get_key _ _ Hsel) as [v Hv].
  pose proof (item_map_values _ _ _ Hv) as Hin.
  destruct v as [x|].
  2:{ exfalso. apply in_map_iff in Hin; destruct Hin as (r & Hid & Hr).
      unfold ids_present in P; rewrite Forall_forall in P.
      exact (P r Hr Hid). }
  destruct (selected_id_found df x Hin) as [idx Hidx].
  destruct (first_match_in_range _ _ _ Hidx) as (r & Hr & _).
  assert (Hne : empty df = false) by (destruct df; [destruct idx |]; auto; discriminate).
  exists x, idx; repeat split; try assumption.
  - intros mode qty reason now e; unfold page_issue_receive_for.
    rewrite Hne, Hv; unfold page_issue_receive_int64.
    rewrite (page_issue_receive_found _ _ _ _ _ _ _ _ Hidx Hr).
    destruct mode; [destruct (qty >? quantity r); [discriminate |] |];
      match goal with
      | |- context [forallb ?p ?l] => destruct (forallb p l)
      end; try discriminate; intros [= <-]; reflexivity.
  - intros qty reason now e F Hq; unfold page_issue_receive_for.
    rewrite Hne, Hv.
    rewrite (page_issue_receive_int64_found _ _ _ _ _ _ _ _ F Hidx Hr).
    rewrite (page_issue_receive_found _ _ _ _ _ _ _ _ Hidx Hr).
    destruct (Z.gtb_spec qty (quantity r)); [discriminate |].
    assert (Q : fits_int64 (quantity r - qty) = true).
    { unfold int64_frame in F; rewrite Forall_forall in F.
      destruct (F r (nth_error_In _ _ Hr)) as [Fr _].
      apply fits_int64_spec in Fr; apply fits_int64_spec.
      unfold int64_min, int64_max in *; lia. }
    rewrite Q; discriminate.
  - intros f now e _ _; rewrite (update_existing_item_found _ _ _ _ _ Hidx).
    destruct (strip_ws (form_item_name f)); discriminate.
Qed.

Lemma selected_label_is_served_witness :
  exists x idx,
    dict_get (lit "STN-0002 - A4 Paper Rim") (item_map Sample.stock) = Some (Some x)
    /\ In (Some x) (map item_id Sample.stock)
    /\ first_match (Some x) Sample.stock = Some idx
    /\ (forall mode qty reason now e,
          page_issue_receive_for Sample.stock (lit "STN-0002 - A4 Paper Rim")
            mode qty reason now = Raised e ->
          e = AssertionError)
    /\ (forall qty reason now e,
          int64_frame Sample.stock -> 1 <= qty ->
          page_issue_receive_for Sample.stock (lit "STN-0002 - A4 Paper Rim")
            Issue qty reason now <> Raised e)
    /\ (forall f now e,
          fits_int64 (form_quantity f) = true ->
          fits_int64 (form_reorder_level f) = true ->
          update_existing_item Sample.stock (Some x) f now <> Raised e).
Proof.
  apply (selected_label_is_served Sample.stock (lit "STN-0002 - A4 Paper Rim")).
  - repeat constructor; discriminate.
  - right; left; reflexivity.
Defined.

(** X15.  When several rows show the same label, the select box reaches
    the last of them: the label of a row stands for that row's id as soon as
    no later row shows the same label, and every row's label is offered. *)
Theorem label_selects_last_row (before after : DataFrame) (r : Row) :
  (forall x, In x after -> item_label x <> item_label r) ->
  dict_get (item_label r) (item_map (before ++ r :: after)) = Some (item_id r)
  /\ In (item_label r) (options (before ++ r :: after)).
Proof.
  intros H.
  assert (E : dict_get (item_label r) (item_map (before ++ r :: after))
              = Some (item_id r)).
  { unfold item_map; rewrite fold_left_app; cbn [fold_left].
    rewrite item_map_from_other_labels by exact H.
    rewrite dict_get_set, str_eqb_refl; reflexivity. }
  split; [exact E |].
  unfold options.
  generalize dependent (item_map (before ++ r :: after)).
  intros d; induction d as [|[k v] d IH]; simpl; [discriminate |].
  destruct (str_eqb k (item_label r)) eqn:Q.
  - intros _; left; apply str_eqb_eq; exact Q.
  - intros G; right; apply IH; exact G.
Qed.

Lemma label_selects_last_row_witness :
  dict_get (item_label Sample.pens)
    (item_map ([Sample.pens; Sample.paper] ++ set_quantity 9 Sample.pens :: [Sample.files]))
    = Some (item_id (set_quantity 9 Sample.pens))
  /\ In (item_label Sample.pens)
       (options ([Sample.pens; Sample.paper]
                   ++ set_quantity 9 Sample.pens :: [Sample.files])).
Proof.
  apply (label_selects_last_row [Sample.pens; Sample.paper] [Sample.files]
           (set_quantity 9 Sample.pens)).
  intros x [<- | []]; discriminate.
Defined.

(** X16.  A row whose item_id is missing cannot be reached: for a NaN
    selection on a table with rows, the transaction page and the update form
    raise IndexError, and the delete button saves the table unchanged while
    it reports the item as deleted. *)
Theorem nan_id_matches_nothing (r : Row) (df : DataFrame) :
  (forall mode qty reason now,
     page_issue_receive (r :: df) None mode qty reason now = Raised IndexError)
  /\ (forall f now,
        update_existing_item (r :: df) None f now = Raised IndexError)
  /\ delete_selected_item (r :: df) None
     = Saved (r :: df) (lit "Item nan deleted. Reload page to see updated list.").
Proof.
  assert (A : forall l, first_match None l = None).
  { intros l; apply first_match_none; intros x _; unfold id_matches.
    destruct (item_id x); reflexivity. }
  split; [| split].
  - intros; unfold page_issue_receive; cbn [empty]; rewrite A; reflexivity.
  - intros; unfold update_existing_item; cbn [empty]; rewrite A; reflexivity.
  - unfold delete_selected_item; cbn [empty]; cbv zeta.
    rewrite filter_all; [reflexivity |].
    intros x; unfold id_matches; destruct (item_id x); reflexivity.
Qed.

(** ** load_data on a file whose numbers convert *)

Section LoadRows.

Variable parse_number : pystr -> option number.

Lemma coerce_column_nth (vs : list raw_value) :
  forall zs j v,
    coerce_column parse_number vs = Some zs ->
    nth_error vs j = Some v ->
    exists z, nth_error zs j = Some z /\ coerce_cell parse_number v = Some z.
Proof.
  induction vs as [|x vs IH]; intros zs j v; simpl.
  - destruct j; discriminate.
  - destruct (coerce_cell parse_number x) as [z|] eqn:E; [| discriminate].
    destruct (coerce_column parse_number vs) as [zs'|]; [| discriminate].
    intros [= <-]; destruct j as [|j]; simpl.
    + intros [= <-]; exists z; auto.
    + apply IH; reflexivity.
Qed.

Lemma typed_rows_nth (rs : list RawRow) :
  forall qs ls j r q l,
    nth_error rs j = Some r -> nth_error qs j = Some q -> nth_error ls j = Some l ->
    nth_error (typed_rows rs qs ls) j = Some (typed_row r q l).
Proof.
  induction rs as [|x rs IH]; intros [|q' qs] [|l' ls] [|j] r q l; simpl;
    try discriminate.
  - intros [= ->] [= ->] [= ->]; reflexivity.
  - apply IH.
Qed.

(** What the conversion makes of a convertible value. *)
Lemma coerce_cell_convertible (v : raw_value) (z : Z) :
  convertible (to_numeric_coerce parse_number v) ->
  coerce_cell parse_number v = Some z ->
  z = match to_numeric_coerce parse_number v with
      | Int i => if fits_int64 i then i else i - 2 ^ 64
      | Float q => Z.quot (Qnum q) (Zpos (Qden q))
      | Inf _ => 0
      | NaN => 0
      end.
Proof.
  unfold coerce_cell.
  destruct (to_numeric_coerce parse_number v) as [i | q | neg |];
    cbn [convertible fillna_0 astype_int]; intros C [= <-].
  - destruct (fits_int64 i) eqn:F; [apply wrap_int64_fits; exact F |].
    unfold wrap_int64, fits_int64, int64_min, int64_max in *.
    apply andb_false_iff in F; rewrite !Z.leb_gt in F.
    replace (i - - 2 ^ 63) with ((i - 2 ^ 63) + 1 * 2 ^ 64) by lia.
    rewrite Z.mod_add, Z.mod_small by lia; lia.
  - rewrite C; reflexivity.
  - reflexivity.
Qed.

Lemma all_convertible_cells (raw : list RawRow) :
  all_convertible parse_number raw ->
  forall r, In r raw ->
    coerce_cell parse_number (raw_quantity r) <> None
    /\ coerce_cell parse_number (raw_reorder_level r) <> None.
Proof.
  intros H r Hr; destruct (H r Hr) as [C1 C2].
  split; intros E; apply coerce_cell_none in E; destruct E as [negative E];
    [rewrite E in C1 | rewrite E in C2]; assumption.
Qed.

(** X17.  A file whose numeric fields all convert (no infinity, ints of an
    int64 or uint64 column, floats whose integer part fits int64) is loaded
    whole: one row per row of the file, in order, the text columns untouched.
    In the two numeric columns an int that fits int64 is kept, an int above
    int64 wraps around to the int minus 2^64, a float loses its fraction, and
    a field that is missing or does not read as a number is 0; every value
    loaded fits int64. *)
Theorem load_data_row_by_row (raw : list RawRow) :
  all_convertible parse_number raw ->
  exists df,
    load_data parse_number raw = inl df
    /\ List.length df = List.length raw
    /\ forall j rr, nth_error raw j = Some rr ->
         exists r,
           nth_error df j = Some r
           /\ quantity r
              = match to_numeric_coerce parse_number (raw_quantity rr) with
                | Int i => if fits_int64 i then i else i - 2 ^ 64
                | Float q => Z.quot (Qnum q) (Zpos (Qden q))
                | Inf _ => 0
                | NaN => 0
                end
           /\ reorder_level r
              = match to_numeric_coerce parse_number (raw_reorder_level rr) with
                | Int i => if fits_int64 i then i else i - 2 ^ 64
                | Float q => Z.quot (Qnum q) (Zpos (Qden q))
                | Inf _ => 0
                | NaN => 0
                end
           /\ fits_int64 (quantity r) = true
           /\ fits_int64 (reorder_level r) = true
           /\ item_id r = raw_item_id rr /\ item_name r = raw_item_name rr
           /\ category r = raw_category rr /\ unit_ r = raw_unit rr
           /\ location r = raw_location rr
           /\ last_updated r = raw_last_updated rr
           /\ remarks r = raw_remarks rr.
Proof.
  intros H; pose proof (all_convertible_cells raw H) as C.
  unfold load_data.
  destruct (coerce_column_some parse_number (map raw_quantity raw)) as (qs & Eq & Lq).
  { intros v Hv; apply in_map_iff in Hv; destruct Hv as (r & <- & Hr).
    apply C; exact Hr. }
  destruct (coerce_column_some parse_number (map raw_reorder_level raw))
    as (ls & El & Ll).
  { intros v Hv; apply in_map_iff in Hv; destruct Hv as (r & <- & Hr).
    apply C; exact Hr. }
  rewrite Eq, El; rewrite length_map in Lq, Ll.
  eexists; split; [reflexivity |].
  split; [apply typed_rows_length; assumption |].
  intros j rr Hj.
  destruct (H rr (nth_error_In _ _ Hj)) as [Cq' Cl'].
  destruct (coerce_column_nth _ _ j (raw_quantity rr) Eq) as (q & Nq & Cq);
    [rewrite nth_error_map, Hj; reflexivity |].
  destruct (coerce_column_nth _ _ j (raw_reorder_level rr) El) as (l & Nl & Cl);
    [rewrite nth_error_map, Hj; reflexivity |].
  exists (typed_row rr q l).
  split; [apply typed_rows_nth; assumption |].
  cbn [typed_row quantity reorder_level item_id item_name category unit_
       location last_updated remarks].
  split; [exact (coerce_cell_convertible _ _ Cq' Cq) |].
  split; [exact (coerce_cell_convertible _ _ Cl' Cl) |].
  assert (R : forall v z, coerce_cell parse_number v = Some z -> fits_int64 z = true).
  { intros v z; unfold coerce_cell.
    destruct (fillna_0 (to_numeric_coerce parse_number v)) as [i | x | neg |];
      cbn [astype_int]; try discriminate; intros [= <-].
    - apply wrap_int64_in_range.
    - destruct (fits_int64 (Qnum x ÷ Z.pos (Qden x))) eqn:F; [exact F | reflexivity]. }
  split; [exact (R _ _ Cq) |]. split; [exact (R _ _ Cl) |].
  repeat split.
Qed.

End LoadRows.

Lemma load_data_row_by_row_witness :
  exists df,
    load_data (fun _ => None) Sample.raw_with_uint64 = inl df
    /\ map quantity df = [- 9223372036854775808].
Proof.
  destruct (load_data_row_by_row (fun _ => None) Sample.raw_with_uint64)
    as (df & E & L & R).
  - intros r [<- | []]; split; simpl; unfold int64_min; lia.
  - exists df; split; [exact E |].
    simpl in E; injection E as <-; reflexivity.
Defined.

(** Malformed and missing fields load as 0 next to values that convert. *)
Example load_data_text_rows :
  exists df,
    load_data (fun _ => None) Sample.raw_with_text = inl df
    /\ map quantity df = [0; 0] /\ map reorder_level df = [10; 10].
Proof. eexists; repeat split. Qed.

(** ** The dashboard after an add or a delete *)

Lemma exact_sum_app (xs ys : list Z) :
  fold_right Z.add 0 (xs ++ ys) = fold_right Z.add 0 xs + fold_right Z.add 0 ys.
Proof. induction xs as [|x xs IH]; simpl; lia. Qed.

Lemma exact_sum_filter_le (p : Row -> bool) (df : DataFrame) :
  quantities_nonneg df ->
  0 <= fold_right Z.add 0 (map quantity (filter p df))
    <= fold_right Z.add 0 (map quantity df).
Proof.
  induction 1 as [|x l Hx _ IH]; simpl; [lia |].
  destruct (p x); simpl; lia.
Qed.

(** X18.  A successful add shows on the dashboard as one more item and as
    the submitted quantity more in the total, in int64 arithmetic (the new
    total is the old total plus the quantity, wrapped around).  A delete
    never raises the number of items, and it does not raise the total when
    no quantity is negative and the exact sum of the quantities fits
    int64. *)
Theorem add_and_delete_on_dashboard (df : DataFrame) (f : ItemForm)
    (now : pystr) (selected_id : cell) :
  (strip_ws (form_item_name f) <> [] ->
     total_items (dashboard_metrics (table_after (add_new_item df f now) df))
       = S (total_items (dashboard_metrics df))
     /\ total_qty (dashboard_metrics (table_after (add_new_item df f now) df))
        = wrap_int64 (total_qty (dashboard_metrics df) + form_quantity f))
  /\ (total_items
        (dashboard_metrics (table_after (delete_selected_item df selected_id) df))
      <= total_items (dashboard_metrics df))%nat
  /\ (quantities_nonneg df ->
      fold_right Z.add 0 (map quantity df) <= int64_max ->
        total_qty
          (dashboard_metrics (table_after (delete_selected_item df selected_id) df))
        <= total_qty (dashboard_metrics df)).
Proof.
  split; [| split].
  - intros H; unfold add_new_item.
    destruct (strip_ws (form_item_name f)); [congruence |].
    cbn [table_after]; rewrite !total_qty_wraps.
    cbn [dashboard_metrics total_items].
    rewrite length_app, map_app, exact_sum_app.
    cbn [List.length map new_row quantity fold_right].
    split; [lia |].
    rewrite wrap_int64_add_l; f_equal; lia.
  - rewrite delete_selected_item_table; cbn [dashboard_metrics total_items].
    apply filter_length_le.
  - intros H Hmax; rewrite delete_selected_item_table, !total_qty_wraps.
    pose proof (exact_sum_filter_le
                  (fun r => negb (id_matches selected_id r)) df H) as B.
    rewrite !wrap_int64_fits;
      [lia | apply fits_int64_spec | apply fits_int64_spec];
      unfold int64_min; lia.
Qed.

(** ** The options of the sidebar *)


Lemma str_leb_total (a b : pystr) : str_leb a b = false -> str_leb b a = true.
Proof.
  revert b; induction a as [|x a IH]; intros [|y b]; simpl; try discriminate;
    try reflexivity.
  destruct (N.ltb_spec (code x) (code y)); [discriminate |].
  destruct (N.eqb_spec (code x) (code y)) as [E | NE].
  - rewrite E, N.ltb_irrefl, N.eqb_refl; apply IH.
  - intros _; destruct (N.ltb_spec (code y) (code x)); [reflexivity | lia].
Qed.

Lemma insert_sorted_In (x c : pystr) (l : list pystr) :
  In c (insert_sorted x l) <-> c = x \/ In c l.
Proof.
  induction l as [|y l IH]; simpl; [intuition |].
  destruct (str_leb x y); simpl; [intuition | rewrite IH; intuition].
Qed.

Lemma py_sorted_In (c : pystr) (l : list pystr) : In c (py_sorted l) <-> In c l.
Proof.
  induction l as [|x l IH]; simpl; [tauto |].
  rewrite insert_sorted_In, IH; intuition.
Qed.

Lemma insert_sorted_NoDup (x : pystr) (l : list pystr) :
  ~ In x l -> NoDup l -> NoDup (insert_sorted x l).
Proof.
  induction l as [|y l IH]; simpl; intros Hx Hl; [repeat constructor; auto |].
  destruct (str_leb x y); [constructor; simpl; auto |].
  inversion Hl; subst; constructor; [| apply IH; auto].
  rewrite insert_sorted_In; intuition.
Qed.

Lemma py_sorted_NoDup (l : list pystr) : NoDup l -> NoDup (py_sorted l).
Proof.
  induction 1 as [|x l Hx _ IH]; simpl; [constructor |].
  apply insert_sorted_NoDup; [rewrite py_sorted_In; exact Hx | exact IH].
Qed.

Lemma insert_sorted_Sorted (x : pystr) (l : list pystr) :
  Sorted (fun a b => str_leb a b = true) l ->
  Sorted (fun a b => str_leb a b = true) (insert_sorted x l).
Proof.
  induction 1 as [|y l Hl IH Hd]; simpl; [repeat constructor |].
  destruct (str_leb x y) eqn:E.
  - constructor; [constructor; assumption | constructor; exact E].
  - constructor; [exact IH |].
    apply str_leb_total in E.
    destruct l as [|z l]; simpl; [constructor; exact E |].
    destruct (str_leb x z); constructor; [exact E |].
    inversion Hd; assumption.
Qed.

Lemma py_sorted_Sorted (l : list pystr) :
  Sorted (fun a b => str_leb a b = true) (py_sorted l).
Proof.
  induction l as [|x l IH]; simpl; [constructor | apply insert_sorted_Sorted, IH].
Qed.

Lemma unique_In (c : pystr) (l : list pystr) : In c (unique l) <-> In c l.
Proof.
  induction l as [|x l IH]; simpl; [tauto |].
  rewrite filter_In, IH, negb_true_iff.
  destruct (str_eqb c x) eqn:E.
  - apply str_eqb_eq in E; subst; intuition.
  - split; [intuition | intros [-> | H]; [rewrite str_eqb_refl in E; discriminate | auto]].
Qed.

Lemma filter_NoDup {A : Type} (p : A -> bool) (l : list A) :
  NoDup l -> NoDup (filter p l).
Proof.
  induction 1 as [|x l Hx _ IH]; simpl; [constructor |].
  destruct (p x); [constructor |]; auto.
  rewrite filter_In; tauto.
Qed.

Lemma unique_NoDup (l : list pystr) : NoDup (unique l).
Proof.
  induction l as [|x l IH]; simpl; constructor; [| apply filter_NoDup, IH].
  rewrite filter_In, str_eqb_refl; simpl; intros [_ H]; discriminate.
Qed.

Lemma dropna_In (c : pystr) (cells : list cell) :
  In c (dropna cells) <-> In (Some c) cells.
Proof.
  induction cells as [|[s|] cells IH]; simpl; [tauto | |].
  - rewrite IH; split; (intros [H | H]; [left; congruence | auto]).
  - rewrite IH; split; [auto | intros [H | H]; [discriminate | auto]].
Qed.

Lemma column_options_In (column : Row -> cell) (df : DataFrame) (c : pystr) :
  In c (column_options column df) <-> exists r, In r df /\ column r = Some c.
Proof.
  unfold column_options; rewrite py_sorted_In, unique_In, dropna_In, in_map_iff.
  split; intros (r & H1 & H2); exists r; tauto.
Qed.

(** X19.  The category and location multiselects offer exactly the values
    that occur in the table, each once, in ascending order, and never a
    missing value; filtering by any one offered value lists at least one
    row. *)
Theorem sidebar_options_select_rows (df : DataFrame) :
  (forall c, In c (column_options category df) <-> In (Some c) (map category df))
  /\ (forall l, In l (column_options location df) <-> In (Some l) (map location df))
  /\ NoDup (column_options category df)
  /\ NoDup (column_options location df)
  /\ Sorted (fun a b => str_leb a b = true) (column_options category df)
  /\ Sorted (fun a b => str_leb a b = true) (column_options location df)
  /\ (forall c, In c (column_options category df) ->
        apply_filters df [c] [] false <> [])
  /\ (forall l, In l (column_options location df) ->
        apply_filters df [] [l] false <> []).
Proof.
  assert (M : forall column c,
            In c (column_options column df) <-> In (Some c) (map column df)).
  { intros column c; rewrite column_options_In, in_map_iff.
    split; intros (r & H1 & H2); exists r; tauto. }
  assert (F : forall (p : Row -> bool) r, In r df -> p r = true -> filter p df <> []).
  { intros p r Hr Hp E.
    assert (Hin : In r (filter p df)) by (apply filter_In; auto).
    rewrite E in Hin; exact Hin. }
  split; [apply M |]. split; [apply M |].
  split; [apply py_sorted_NoDup, unique_NoDup |].
  split; [apply py_sorted_NoDup, unique_NoDup |].
  split; [apply py_sorted_Sorted |].
  split; [apply py_sorted_Sorted |].
  split; intros c Hc; apply column_options_In in Hc; destruct Hc as (r & Hr & E);
    unfold apply_filters; cbv zeta; apply (F _ r Hr);
    rewrite E; simpl; rewrite str_eqb_refl; reflexivity.
Qed.
